(** * Shallow embedding of the TNI delta-v engine and the mission phase simulator

    Sources: [tni_deltav_calculations.py] (orbit model, manoeuvre cost
    library, rendezvous cost model), [tni_performace.py] (economic projector),
    its earlier version [calc.py], and [tni_simulator.py] (mission phase
    simulator).

    Python floats are modelled as real numbers.  Rounding, and the overflow
    and underflow of [math.exp], are not modelled.  The exceptions Python
    raises on the operations used here are modelled: float division by zero
    raises [ZeroDivisionError], and [math.sqrt] / [math.log10] outside their
    domain raise [ValueError]. *)

From Stdlib Require Import Reals Lra Psatz ZArith List.
Import ListNotations.
Open Scope R_scope.

(** ** Python exceptions and a small error monad *)

Inductive PyExn : Type :=
| ZeroDivisionError
| ValueError.

Inductive Result (A : Type) : Type :=
| Ok (a : A)
| Err (e : PyExn).
Arguments Ok {A} a.
Arguments Err {A} e.

Definition bind {A B : Type} (m : Result A) (f : A -> Result B) : Result B :=
  match m with
  | Ok a => f a
  | Err e => Err e
  end.

Notation "'let*' x ':=' m 'in' f" := (bind m (fun x => f))
  (at level 200, x binder, right associativity).

(** Python's [/] on floats. *)
Definition py_div (x y : R) : Result R :=
  if Req_EM_T y 0 then Err ZeroDivisionError else Ok (x / y).

(** [math.sqrt]. *)
Definition py_sqrt (x : R) : Result R :=
  if Rlt_dec x 0 then Err ValueError else Ok (sqrt x).

(** [math.log10]. *)
Definition py_log10 (x : R) : Result R :=
  if Rle_dec x 0 then Err ValueError else Ok (ln x / ln 10).

(** [math.exp].  CPython's [math.exp] raises [OverflowError] for an
    argument above about 709.78 and returns [0.0] below about -745.13; both
    are left out here, so statements about the exceptions of code that
    calls [py_exp] are restricted to arguments of absolute value at most
    700, where [math.exp] returns a finite, non-zero float. *)
Definition py_exp (x : R) : Result R := Ok (exp x).

(** [math.radians]. *)
Definition radians (deg : R) : R := deg * PI / 180.

(** ** tni_deltav_calculations.py *)

Module DeltaV.

(** [@dataclass class OrbitParams]. *)
Record OrbitParams : Type := mkOrbitParams {
  altitude_km : R;
  inclination_deg : R
}.

(** [OrbitParams.radius_km]. *)
Definition radius_km (o : OrbitParams) : R := 6371 + altitude_km o.

(** [OrbitParams.velocity_ms]. *)
Definition velocity_ms (o : OrbitParams) : Result R :=
  let mu := 398600.4418 in
  let* q := py_div mu (radius_km o) in
  let* s := py_sqrt q in
  Ok (s * 1000).

(** [@dataclass class DeltaVBreakdown]: seven stored fields. *)
Record DeltaVBreakdown : Type := mkDeltaVBreakdown {
  search_acquisition : R;
  hohmann_transfer_dv : R;
  plane_change_dv : R;
  approach_corrections : R;
  final_approach : R;
  docking_maneuver : R;
  safety_margin : R
}.

(** [DeltaVBreakdown.total]: Python's [sum] starts from [0]. *)
Definition total (b : DeltaVBreakdown) : R :=
  0 + search_acquisition b + hohmann_transfer_dv b + plane_change_dv b
    + approach_corrections b + final_approach b + docking_maneuver b
    + safety_margin b.

(** [TNIRCalculator.MU_EARTH] and [TNIRCalculator.EARTH_RADIUS]. *)
Definition MU_EARTH : R := 398600.4418.
Definition EARTH_RADIUS : R := 6371.0.

(** [TNIRCalculator.hohmann_transfer]. *)
Definition hohmann_transfer (r1_km r2_km : R) : Result (R * R) :=
  let* q1 := py_div MU_EARTH r1_km in
  let* v1 := py_sqrt q1 in
  let* a1 := py_div 2 r1_km in
  let* b1 := py_div 2 (r1_km + r2_km) in
  let* v_transfer_1 := py_sqrt (MU_EARTH * (a1 - b1)) in
  let dv1 := Rabs (v_transfer_1 - v1) * 1000 in
  let* q2 := py_div MU_EARTH r2_km in
  let* v2 := py_sqrt q2 in
  let* a2 := py_div 2 r2_km in
  let* b2 := py_div 2 (r1_km + r2_km) in
  let* v_transfer_2 := py_sqrt (MU_EARTH * (a2 - b2)) in
  let dv2 := Rabs (v2 - v_transfer_2) * 1000 in
  Ok (dv1, dv2).

(** [TNIRCalculator.plane_change]. *)
Definition plane_change (velocity_ms angle_deg : R) : R :=
  let angle_rad := radians angle_deg in
  2 * velocity_ms * sin (angle_rad / 2).

(** [TNIRCalculator.phasing_maneuver]: [phase_angle_deg] is not read. *)
Definition phasing_maneuver (r_km phase_angle_deg : R) : Result R :=
  let delta_h := 5 in
  let r1 := r_km in
  let r2 := r_km - delta_h in
  let* '(dv_down, _) := hohmann_transfer r1 r2 in
  let* '(dv_up, _) := hohmann_transfer r2 r1 in
  Ok (dv_down + dv_up).

(** [TNIRCalculator.calculate_standard_rendezvous]. *)
Definition calculate_standard_rendezvous (chaser target : OrbitParams)
    (separation_km inclination_diff_deg : R) : Result DeltaVBreakdown :=
  let search_dv := 8.0 + (separation_km / 50) * 2.0 in
  let* '(dv1, dv2) := hohmann_transfer (radius_km chaser) (radius_km target) in
  let hohmann_dv := dv1 + dv2 in
  let* plane_change_dv :=
    if Rlt_dec 0 inclination_diff_deg then
      let* v := velocity_ms target in Ok (plane_change v inclination_diff_deg)
    else Ok 0.0 in
  let approach_corrections := 6.0 + (separation_km / 100) * 4.0 in
  let* lg := py_log10 (Rmax 1 separation_km) in
  let final_approach := 4.0 + 0.5 * lg in
  let docking := 3.0 in
  let safety := (search_dv + hohmann_dv + plane_change_dv +
                 approach_corrections + final_approach + docking) * 0.22 in
  Ok (mkDeltaVBreakdown search_dv hohmann_dv plane_change_dv
        approach_corrections final_approach docking safety).

(** [TNIRCalculator.calculate_tni_rendezvous]. *)
Definition calculate_tni_rendezvous (chaser target : OrbitParams)
    (separation_km inclination_diff_deg : R) : Result DeltaVBreakdown :=
  let search_dv := 1.5 in
  let* '(dv1, dv2) := hohmann_transfer (radius_km chaser) (radius_km target) in
  let hohmann_dv := (dv1 + dv2) * 0.7 in
  let* plane_change_dv :=
    if Rlt_dec 0 inclination_diff_deg then
      let* v := velocity_ms target in
      Ok (plane_change v inclination_diff_deg * 0.85)
    else Ok 0.0 in
  let approach_corrections := 2.0 + (separation_km / 200) * 1.0 in
  let* lg := py_log10 (Rmax 1 separation_km) in
  let final_approach := 1.5 + 0.2 * lg in
  let docking := 1.2 in
  let safety := (search_dv + hohmann_dv + plane_change_dv +
                 approach_corrections + final_approach + docking) * 0.09 in
  Ok (mkDeltaVBreakdown search_dv hohmann_dv plane_change_dv
        approach_corrections final_approach docking safety).

(** [TNIRCalculator.calculate_propellant_mass]. *)
Definition calculate_propellant_mass (dv_ms dry_mass_kg isp_s : R) : Result R :=
  let g0 := 9.80665 in
  let ve := isp_s * g0 in
  let* x := py_div (- dv_ms) ve in
  let* mass_ratio := py_exp x in
  let propellant_fraction := 1 - mass_ratio in
  let* m_initial := py_div dry_mass_kg mass_ratio in
  let propellant_mass := m_initial - dry_mass_kg in
  Ok propellant_mass.

End DeltaV.

(** ** tni_performace.py *)

Module Performance.

(** [calculate_propellant_cost_savings]: returns
    [(propellant_saved_kg, cost_saved_usd)]. *)
Definition calculate_propellant_cost_savings (dv_saved_mps isp dry_mass_kg : R)
    : Result (R * R) :=
  let g0 := 9.81 in
  let ve := isp * g0 in
  let* q := py_div dv_saved_mps ve in
  let* e := py_exp q in
  let mass_ratio_change := e - 1 in
  let propellant_saved_kg := dry_mass_kg * mass_ratio_change in
  let cost_saved_usd := propellant_saved_kg * 0.50 in
  Ok (propellant_saved_kg, cost_saved_usd).

End Performance.

(** ** Closed forms of the engine on its valid domain

    These are the values the functions above compute when no exception is
    raised; the lemmas below show when they agree. *)

Module Closed.
Import DeltaV.

(** The two burns of [hohmann_transfer]. *)
Definition hohmann_dv1 (r1 r2 : R) : R :=
  Rabs (sqrt (MU_EARTH * (2 / r1 - 2 / (r1 + r2))) - sqrt (MU_EARTH / r1)) * 1000.

Definition hohmann_dv2 (r1 r2 : R) : R :=
  Rabs (sqrt (MU_EARTH / r2) - sqrt (MU_EARTH * (2 / r2 - 2 / (r1 + r2)))) * 1000.

(** The plane-change phase of both rendezvous models, before the TNI
    scaling by [0.85]. *)
Definition plane_term (target : OrbitParams) (inclination_diff_deg : R) : R :=
  if Rlt_dec 0 inclination_diff_deg then
    plane_change (sqrt (398600.4418 / radius_km target) * 1000) inclination_diff_deg
  else 0.0.

(** [math.log10(max(1, separation_km))]. *)
Definition log_term (separation_km : R) : R := ln (Rmax 1 separation_km) / ln 10.

(** The breakdowns built by the two rendezvous models from the Hohmann
    total [h], the plane-change term [p] and the log term [l]. *)
Definition std_breakdown (sep h p l : R) : DeltaVBreakdown :=
  mkDeltaVBreakdown (8.0 + (sep / 50) * 2.0) h p (6.0 + (sep / 100) * 4.0)
    (4.0 + 0.5 * l) 3.0
    ((8.0 + (sep / 50) * 2.0 + h + p + (6.0 + (sep / 100) * 4.0)
      + (4.0 + 0.5 * l) + 3.0) * 0.22).

Definition tni_breakdown (sep h p l : R) : DeltaVBreakdown :=
  mkDeltaVBreakdown 1.5 (h * 0.7) (p * 0.85) (2.0 + (sep / 200) * 1.0)
    (1.5 + 0.2 * l) 1.2
    ((1.5 + h * 0.7 + p * 0.85 + (2.0 + (sep / 200) * 1.0)
      + (1.5 + 0.2 * l) + 1.2) * 0.09).

(** The six components other than [safety_margin]. *)
Definition sum6 (b : DeltaVBreakdown) : R :=
  search_acquisition b + hohmann_transfer_dv b + plane_change_dv b
  + approach_corrections b + final_approach b + docking_maneuver b.

(** Python attribute assignment [b.search_acquisition = v] on the
    (non-frozen) dataclass. *)
Definition set_search_acquisition (b : DeltaVBreakdown) (v : R) : DeltaVBreakdown :=
  mkDeltaVBreakdown v (hohmann_transfer_dv b) (plane_change_dv b)
    (approach_corrections b) (final_approach b) (docking_maneuver b)
    (safety_margin b).

(** Chaser and target both at 400 km altitude, coplanar. *)
Definition orbit400 : OrbitParams := mkOrbitParams 400 0.

End Closed.

(** ** tni_simulator.py: the mission phase simulator

    The vehicle and satellite positions that [_update_simulation_state]
    also updates only feed the drawing code and are left out of the state. *)

Module Simulator.

(** The values of [current_phase]: "PRE-LAUNCH", "ASCENT",
    "TNI ACTIVATION", "ORBITAL INSERTION", "TNI DISCONNECT" and
    "NOMINAL ORBIT". *)
Inductive Phase : Type :=
| PRE_LAUNCH
| ASCENT
| TNI_ACTIVATION
| ORBITAL_INSERTION
| TNI_DISCONNECT
| NOMINAL_ORBIT.

Record SimState : Type := mkSimState {
  time_s : R;
  is_running : bool;
  current_phase : Phase;
  altitude_km : R;
  position_error_m : R;
  velocity_error_mps : R;
  dv_saved_mps : R;
  active_links : Z;
  is_tni_active : bool;
  speed_index : Z;
  current_speed_multiplier : R
}.

(** [SPEED_MULTIPLIERS]. *)
Definition SPEED_MULTIPLIERS : list R := [0.25; 0.5; 1.0; 2.0; 4.0].

(** The state set up by [TNISimulator.__init__]. *)
Definition init_state : SimState :=
  mkSimState 0.0 false PRE_LAUNCH 0.0 25.0 0.15 0.0 0 false 2 1.0.

(** Python's [int(x)] on a float: truncation towards zero. *)
Definition py_int (x : R) : Z :=
  if Rle_dec 0 x then Int_part x else (- Int_part (- x))%Z.

(** The upper ends of [TIME_PHASES['ASCENT']], ['TNI_ACTIVATION'],
    ['ORBITAL_INSERTION'] and ['TNI_DISCONNECT']. *)
Definition ASCENT_END : R := 150.
Definition TNI_ACTIVATION_END : R := 170.
Definition ORBITAL_INSERTION_END : R := 290.
Definition TNI_DISCONNECT_END : R := 310.

(** [TNISimulator._update_simulation_state].  [rnd] holds the two values
    of [random.random()] drawn in the orbital-insertion branch, the first
    for the position error and the second for the velocity error. *)
Definition update_simulation_state (dt : R) (rnd : R * R) (s : SimState) : SimState :=
  if negb (is_running s) then s else
  let effective_dt := dt * current_speed_multiplier s in
  let t := time_s s + effective_dt in
  let (u1, u2) := rnd in
  if Rlt_dec t ASCENT_END then
    mkSimState t (is_running s) ASCENT ((t / 150) * 200) 25.0 0.15
      (dv_saved_mps s) 0 false (speed_index s) (current_speed_multiplier s)
  else if Rlt_dec t TNI_ACTIVATION_END then
    let tni_time := t - 150 in
    mkSimState t (is_running s) TNI_ACTIVATION (altitude_km s)
      (Rmax 0.03 (20 * exp (- tni_time / 9)))
      (Rmax 0.003 (0.15 * exp (- tni_time / 7)))
      (dv_saved_mps s) (Z.min 10 (py_int ((t - 150) * 0.5))) true
      (speed_index s) (current_speed_multiplier s)
  else if Rlt_dec t ORBITAL_INSERTION_END then
    let position_error := 0.03 + u1 * 0.02 in
    mkSimState t (is_running s) ORBITAL_INSERTION (200 + (t - 170) * 0.91)
      position_error (0.002 + u2 * 0.001) (45 * (1 - position_error / 25))
      (active_links s) (is_tni_active s) (speed_index s) (current_speed_multiplier s)
  else if Rlt_dec t TNI_DISCONNECT_END then
    mkSimState t (is_running s) TNI_DISCONNECT (altitude_km s)
      (position_error_m s) (velocity_error_mps s) (dv_saved_mps s)
      (Z.max 0 (10 - py_int ((t - 290) * 0.5))) (is_tni_active s)
      (speed_index s) (current_speed_multiplier s)
  else
    mkSimState t false NOMINAL_ORBIT (altitude_km s)
      (position_error_m s) (velocity_error_mps s) (dv_saved_mps s)
      (active_links s) (is_tni_active s) (speed_index s) (current_speed_multiplier s).

(** The START/PAUSE button and the space key: [is_running = not is_running]. *)
Definition toggle_running (s : SimState) : SimState :=
  mkSimState (time_s s) (negb (is_running s)) (current_phase s) (altitude_km s)
    (position_error_m s) (velocity_error_mps s) (dv_saved_mps s)
    (active_links s) (is_tni_active s) (speed_index s) (current_speed_multiplier s).

(** [TNISimulator._handle_speed_change]. *)
Definition handle_speed_change (direction : Z) (s : SimState) : SimState :=
  let new_index := (speed_index s + direction)%Z in
  if andb (0 <=? new_index)%Z (new_index <? Z.of_nat (length SPEED_MULTIPLIERS))%Z
  then mkSimState (time_s s) (is_running s) (current_phase s) (altitude_km s)
         (position_error_m s) (velocity_error_mps s) (dv_saved_mps s)
         (active_links s) (is_tni_active s) new_index
         (nth (Z.to_nat new_index) SPEED_MULTIPLIERS 1.0)
  else s.

(** The states the main loop of [TNISimulator.run] can produce: [dt] is
    [clock.tick(60) / 1000], never negative, and [random.random()] lies in
    [[0, 1)].  The reset key re-runs [__init__], giving [init_state] again. *)
Inductive reachable : SimState -> Prop :=
| reach_init : reachable init_state
| reach_update (s : SimState) (dt u1 u2 : R) :
    reachable s -> 0 <= dt -> 0 <= u1 < 1 -> 0 <= u2 < 1 ->
    reachable (update_simulation_state dt (u1, u2) s)
| reach_toggle (s : SimState) : reachable s -> reachable (toggle_running s)
| reach_speed (s : SimState) (d : Z) : reachable s -> reachable (handle_speed_change d s).

(** A sequence of [advance] calls: each entry is a [dt] and the random
    draws of that call. *)
Definition run (steps : list (R * (R * R))) (s : SimState) : SimState :=
  fold_left (fun acc step => update_simulation_state (fst step) (snd step) acc) steps s.

Definition sum_dt (steps : list (R * (R * R))) : R :=
  fold_right (fun step acc => fst step + acc) 0 steps.

(** The simulator started: [init_state] after pressing START. *)
Definition started : SimState := toggle_running init_state.

(** The part of the state a consumer reads after each [advance]. *)
Definition observable (s : SimState) : R * Phase * R * R * R * R * Z :=
  (time_s s, current_phase s, altitude_km s, position_error_m s,
   velocity_error_mps s, dv_saved_mps s, active_links s).

(** What each phase branch of [update_simulation_state] leaves in the
    state, as a function of the time it ran at. *)
Definition consistent (s : SimState) : Prop :=
  let t := time_s s in
  match current_phase s with
  | PRE_LAUNCH => t = 0
  | ASCENT =>
      t < 150 /\ altitude_km s = (t / 150) * 200 /\ active_links s = 0%Z
      /\ position_error_m s = 25.0 /\ velocity_error_mps s = 0.15
  | TNI_ACTIVATION =>
      150 <= t < 170
      /\ position_error_m s = Rmax 0.03 (20 * exp (- (t - 150) / 9))
      /\ velocity_error_mps s = Rmax 0.003 (0.15 * exp (- (t - 150) / 7))
      /\ active_links s = Z.min 10 (py_int ((t - 150) * 0.5))
  | ORBITAL_INSERTION => 170 <= t < 290 /\ altitude_km s = 200 + (t - 170) * 0.91
  | TNI_DISCONNECT =>
      290 <= t < 310 /\ active_links s = Z.max 0 (10 - py_int ((t - 290) * 0.5))
  | NOMINAL_ORBIT => 310 <= t
  end.

End Simulator.

(** ** tni_performace.py: the other projector functions *)

Module Metrics.

(** [calculate_delta_v_saved]: [tni_dv_budget] is not read. *)
Definition calculate_delta_v_saved (current_dv_budget tni_dv_budget : R) : Result R :=
  let current_vel_error := 0.1 in
  let tni_vel_error := 0.001 in
  let* proportional_savings :=
    py_div (current_vel_error - tni_vel_error) current_vel_error in
  let estimated_savings := current_dv_budget * proportional_savings in
  Ok estimated_savings.

(** The dictionary returned by [calculate_mission_value_savings]. *)
Record MissionValue : Type := mkMissionValue {
  payload_gain_kg : R;
  payload_value_usd : R;
  extra_satellites : Z
}.

(** [calculate_mission_value_savings]. *)
Definition calculate_mission_value_savings (dv_saved_mps : R) : Result MissionValue :=
  let payload_gain_kg := dv_saved_mps * 400 in
  let payload_value_usd := payload_gain_kg * 2940 in
  let* q := py_div payload_gain_kg 260 in
  Ok (mkMissionValue payload_gain_kg payload_value_usd (Simulator.py_int q)).

End Metrics.

(** ** calc.py: the earlier version of the projector functions *)

Module Calc.

(** [calculate_delta_v_saved] of [calc.py]: the quotient
    [improvement_factor_vel] is computed and not used, and the result does
    not depend on the arguments. *)
Definition calculate_delta_v_saved (current_dv_budget tni_dv_budget : R) : Result R :=
  let* improvement_factor_vel := py_div current_dv_budget tni_dv_budget in
  let current_vel_error := 0.1 in
  let tni_vel_error := 0.001 in
  let* proportional_savings :=
    py_div (current_vel_error - tni_vel_error) current_vel_error in
  let estimated_savings := current_vel_error * proportional_savings * 100 in
  Ok estimated_savings.

End Calc.

(** ** tni_deltav_calculations.py: the values [print_scenario] prints *)

Module Scenario.
Import DeltaV.

(** The numbers [TNIRCalculator.print_scenario] derives from the two
    breakdowns; [extra_sats] is [None] when the line is not printed. *)
Record ScenarioSummary : Type := mkScenarioSummary {
  savings : R;
  savings_pct : R;
  prop_saved : R;
  direct_cost : R;
  payload_value : R;
  extra_sats : option Z
}.

(** The exhaust velocity [ve = isp_s * g0] of [calculate_propellant_mass]
    at the default [isp_s = 380] used by [print_scenario] and [main]. *)
Definition VE : R := 380 * 9.80665.

(** [TNIRCalculator.print_scenario] without its output, with
    [vehicle_mass_kg] and the default [isp_s = 380] of
    [calculate_propellant_mass]. *)
Definition print_scenario (standard tni : DeltaVBreakdown) (vehicle_mass_kg : R)
    : Result ScenarioSummary :=
  let savings := total standard - total tni in
  let* q := py_div savings (total standard) in
  let savings_pct := q * 100 in
  let* prop_standard := calculate_propellant_mass (total standard) vehicle_mass_kg 380 in
  let* prop_tni := calculate_propellant_mass (total tni) vehicle_mass_kg 380 in
  let prop_saved := prop_standard - prop_tni in
  let* extra_sats :=
    if Rle_dec 260 prop_saved then
      let* k := py_div prop_saved 260 in Ok (Some (Simulator.py_int k))
    else Ok None in
  Ok (mkScenarioSummary savings savings_pct prop_saved (prop_saved * 0.50)
        (prop_saved * 2940) extra_sats).

(** The fleet section of [main], with the breakdowns of its four scenarios
    as parameters: returns [(avg_savings, annual_prop_saved)]. *)
Definition fleet_analysis (standard1 standard2 standard3 standard4
    tni1 tni2 tni3 tni4 : DeltaVBreakdown) : Result (R * R) :=
  let avg_standard := (total standard1 + total standard2 +
                       total standard3 + total standard4) / 4 in
  let avg_tni := (total tni1 + total tni2 + total tni3 + total tni4) / 4 in
  let avg_savings := avg_standard - avg_tni in
  let* q := py_div avg_savings avg_standard in
  let missions_per_year := 100 in
  let* p := calculate_propellant_mass avg_savings 100000 380 in
  let annual_prop_saved := p * missions_per_year in
  Ok (avg_savings, annual_prop_saved).

End Scenario.

(** ** The order of the simulator phases

    "PRE-LAUNCH", set by [__init__], comes first; the other phases follow
    in the order of their time windows in [TIME_PHASES]. *)

Module PhaseOrder.
Import Simulator.

Definition phase_rank (p : Phase) : nat :=
  match p with
  | PRE_LAUNCH => 0
  | ASCENT => 1
  | TNI_ACTIVATION => 2
  | ORBITAL_INSERTION => 3
  | TNI_DISCONNECT => 4
  | NOMINAL_ORBIT => 5
  end.

End PhaseOrder.

(** ** Evaluation lemmas for the Python primitives *)

Lemma py_div_ok (x y : R) : y <> 0 -> py_div x y = Ok (x / y).
Proof. intro Hy. unfold py_div. destruct (Req_EM_T y 0); [contradiction | reflexivity]. Qed.

Lemma py_div_zero (x : R) : py_div x 0 = Err ZeroDivisionError.
Proof. unfold py_div. destruct (Req_EM_T 0 0); [reflexivity | congruence]. Qed.

Lemma py_sqrt_ok (x : R) : 0 <= x -> py_sqrt x = Ok (sqrt x).
Proof. intro Hx. unfold py_sqrt. destruct (Rlt_dec x 0); [lra | reflexivity]. Qed.

Lemma py_sqrt_neg (x : R) : x < 0 -> py_sqrt x = Err ValueError.
Proof. intro Hx. unfold py_sqrt. destruct (Rlt_dec x 0); [reflexivity | lra]. Qed.

Lemma py_log10_ok (x : R) : 0 < x -> py_log10 x = Ok (ln x / ln 10).
Proof. intro Hx. unfold py_log10. destruct (Rle_dec x 0); [lra | reflexivity]. Qed.

(** Discharges the side conditions of the evaluation lemmas. *)
Ltac py_side := first [ lra | nra | assumption | auto with real ].

(** Steps a monadic computation through its Python primitives. *)
Ltac py_eval :=
  repeat (first [ rewrite py_div_ok by py_side
                | rewrite py_sqrt_ok by py_side
                | rewrite py_log10_ok by py_side ]; cbn [bind]).

Lemma sqrt_bounds (lo hi x : R) :
  0 <= lo -> lo * lo <= x -> x <= hi * hi -> 0 <= hi ->
  lo <= sqrt x <= hi.
Proof.
  intros Hlo Hl Hh Hhi. split.
  - rewrite <- (sqrt_square lo Hlo). apply sqrt_le_1; nra.
  - rewrite <- (sqrt_square hi Hhi). apply sqrt_le_1; nra.
Qed.

Lemma ln_max_1_nonneg (x : R) : 0 <= ln (Rmax 1 x) / ln 10.
Proof.
  assert (H10 : 0 < ln 10).
  { rewrite <- ln_1. apply ln_increasing; lra. }
  assert (Hm : 1 <= Rmax 1 x) by apply Rmax_l.
  destruct (Req_dec (Rmax 1 x) 1) as [E | NE].
  - rewrite E, ln_1. unfold Rdiv. lra.
  - assert (0 < ln (Rmax 1 x)).
    { rewrite <- ln_1. apply ln_increasing; lra. }
    unfold Rdiv. apply Rmult_le_pos; [lra | left; apply Rinv_0_lt_compat; lra].
Qed.

Module DeltaVFacts.
Import DeltaV Closed.

Lemma MU_EARTH_pos : 0 < MU_EARTH.
Proof. unfold MU_EARTH. lra. Qed.

Lemma transfer_gap (a b : R) : 0 < a -> 0 < b -> 0 < 2 / a - 2 / (a + b).
Proof.
  intros Ha Hb.
  assert (/ (a + b) < / a) by (apply Rinv_lt_contravar; nra).
  unfold Rdiv. lra.
Qed.

Lemma transfer_arg_nonneg (a b : R) :
  0 < a -> 0 < b -> 0 <= MU_EARTH * (2 / a - 2 / (a + b)).
Proof.
  intros Ha Hb. pose proof (transfer_gap a b Ha Hb). pose proof MU_EARTH_pos. nra.
Qed.

Lemma circular_arg_nonneg (r : R) : 0 < r -> 0 <= MU_EARTH / r.
Proof.
  intro Hr. pose proof MU_EARTH_pos. unfold Rdiv.
  apply Rmult_le_pos; [lra | left; apply Rinv_0_lt_compat; lra].
Qed.

Lemma hohmann_transfer_ok (r1 r2 : R) :
  0 < r1 -> 0 < r2 ->
  hohmann_transfer r1 r2 = Ok (hohmann_dv1 r1 r2, hohmann_dv2 r1 r2).
Proof.
  intros H1 H2.
  pose proof (transfer_arg_nonneg r1 r2 H1 H2).
  pose proof (transfer_arg_nonneg r2 r1 H2 H1).
  pose proof (circular_arg_nonneg r1 H1).
  pose proof (circular_arg_nonneg r2 H2).
  unfold hohmann_transfer. py_eval.
  rewrite py_sqrt_ok by (rewrite Rplus_comm; assumption). cbn [bind].
  reflexivity.
Qed.

Lemma hohmann_dv1_nonneg (r1 r2 : R) : 0 <= hohmann_dv1 r1 r2.
Proof. unfold hohmann_dv1. pose proof (Rabs_pos (sqrt (MU_EARTH * (2 / r1 - 2 / (r1 + r2))) - sqrt (MU_EARTH / r1))). lra. Qed.

Lemma hohmann_dv2_nonneg (r1 r2 : R) : 0 <= hohmann_dv2 r1 r2.
Proof. unfold hohmann_dv2. pose proof (Rabs_pos (sqrt (MU_EARTH / r2) - sqrt (MU_EARTH * (2 / r2 - 2 / (r1 + r2))))). lra. Qed.

(** Swapping the radii swaps the two burns. *)
Lemma hohmann_dv1_swap (r1 r2 : R) : hohmann_dv1 r2 r1 = hohmann_dv2 r1 r2.
Proof.
  unfold hohmann_dv1, hohmann_dv2. rewrite (Rplus_comm r2 r1), Rabs_minus_sym.
  reflexivity.
Qed.

Lemma hohmann_dv2_swap (r1 r2 : R) : hohmann_dv2 r2 r1 = hohmann_dv1 r1 r2.
Proof.
  unfold hohmann_dv1, hohmann_dv2. rewrite (Rplus_comm r2 r1), Rabs_minus_sym.
  reflexivity.
Qed.

(** Between two different radii both burns are strictly positive. *)
Lemma hohmann_dv1_pos (r1 r2 : R) :
  0 < r1 -> 0 < r2 -> r1 <> r2 -> 0 < hohmann_dv1 r1 r2.
Proof.
  intros H1 H2 Hne. unfold hohmann_dv1.
  assert (Hd : sqrt (MU_EARTH * (2 / r1 - 2 / (r1 + r2))) - sqrt (MU_EARTH / r1) <> 0).
  { intro E. apply Hne.
    assert (E' : MU_EARTH * (2 / r1 - 2 / (r1 + r2)) = MU_EARTH / r1).
    { apply sqrt_inj; [apply transfer_arg_nonneg | apply circular_arg_nonneg | ]; lra. }
    assert (Id : MU_EARTH * (2 / r1 - 2 / (r1 + r2)) - MU_EARTH / r1
                 = MU_EARTH * (r2 - r1) / (r1 * (r1 + r2))) by (field; lra).
    rewrite E' in Id. replace (MU_EARTH / r1 - MU_EARTH / r1) with 0 in Id by ring.
    pose proof MU_EARTH_pos.
    assert (MU_EARTH * (r2 - r1) = 0).
    { apply (Rmult_eq_reg_r (/ (r1 * (r1 + r2)))).
      - rewrite Rmult_0_l. unfold Rdiv in Id. lra.
      - apply Rinv_neq_0_compat. nra. }
    nra. }
  pose proof (Rabs_pos_lt _ Hd). lra.
Qed.

Lemma hohmann_dv2_pos (r1 r2 : R) :
  0 < r1 -> 0 < r2 -> r1 <> r2 -> 0 < hohmann_dv2 r1 r2.
Proof.
  intros H1 H2 Hne. rewrite <- hohmann_dv1_swap.
  apply hohmann_dv1_pos; auto.
Qed.

Lemma velocity_ms_ok (o : OrbitParams) :
  0 < radius_km o -> velocity_ms o = Ok (sqrt (398600.4418 / radius_km o) * 1000).
Proof.
  intro Hr. unfold velocity_ms.
  assert (0 <= 398600.4418 / radius_km o).
  { unfold Rdiv. apply Rmult_le_pos; [lra | left; apply Rinv_0_lt_compat; lra]. }
  py_eval. reflexivity.
Qed.

Lemma Rmax_1_pos (x : R) : 0 < Rmax 1 x.
Proof. pose proof (Rmax_l 1 x). lra. Qed.

Lemma calculate_standard_rendezvous_ok (chaser target : OrbitParams) (sep incl : R) :
  0 < radius_km chaser -> 0 < radius_km target ->
  calculate_standard_rendezvous chaser target sep incl
  = Ok (std_breakdown sep
          (hohmann_dv1 (radius_km chaser) (radius_km target)
           + hohmann_dv2 (radius_km chaser) (radius_km target))
          (plane_term target incl) (log_term sep)).
Proof.
  intros Hc Ht. pose proof (Rmax_1_pos sep).
  unfold calculate_standard_rendezvous, plane_term.
  rewrite hohmann_transfer_ok by assumption. cbn [bind].
  destruct (Rlt_dec 0 incl).
  - rewrite velocity_ms_ok by assumption. cbn [bind]. py_eval. reflexivity.
  - cbn [bind]. py_eval. reflexivity.
Qed.

Lemma calculate_tni_rendezvous_ok (chaser target : OrbitParams) (sep incl : R) :
  0 < radius_km chaser -> 0 < radius_km target ->
  calculate_tni_rendezvous chaser target sep incl
  = Ok (tni_breakdown sep
          (hohmann_dv1 (radius_km chaser) (radius_km target)
           + hohmann_dv2 (radius_km chaser) (radius_km target))
          (plane_term target incl) (log_term sep)).
Proof.
  intros Hc Ht. pose proof (Rmax_1_pos sep).
  unfold calculate_tni_rendezvous, plane_term.
  rewrite hohmann_transfer_ok by assumption. cbn [bind].
  destruct (Rlt_dec 0 incl).
  - rewrite velocity_ms_ok by assumption. cbn [bind]. py_eval. reflexivity.
  - cbn [bind]. py_eval. unfold tni_breakdown, log_term.
    replace (0.0 * 0.85) with 0.0 by lra. reflexivity.
Qed.

(** The gap between the two totals, as a function of the shared terms. *)
Lemma totals_gap (sep h p l : R) :
  total (std_breakdown sep h p l) - total (tni_breakdown sep h p l)
  = 18.862 + 0.09215 * sep + 0.457 * h + 0.2935 * p + 0.392 * l.
Proof. unfold total, std_breakdown, tni_breakdown. simpl. lra. Qed.

Lemma totals_gap_pos (sep h p l : R) :
  0 <= sep -> 0 <= h -> 0 <= p -> 0 <= l ->
  total (tni_breakdown sep h p l) < total (std_breakdown sep h p l).
Proof. intros. pose proof (totals_gap sep h p l). lra. Qed.

Lemma log_term_nonneg (sep : R) : 0 <= log_term sep.
Proof. apply ln_max_1_nonneg. Qed.

Lemma log_term_0 : log_term 0 = 0.
Proof.
  unfold log_term. rewrite Rmax_left by lra. rewrite ln_1. unfold Rdiv. ring.
Qed.

Lemma plane_term_nonneg (target : OrbitParams) (incl : R) :
  incl <= 360 -> 0 <= plane_term target incl.
Proof.
  intro Hle. unfold plane_term, plane_change, radians.
  destruct (Rlt_dec 0 incl) as [Hpos | _]; [ | lra].
  pose proof PI_RGT_0.
  assert (0 <= sin (incl * PI / 180 / 2)).
  { apply sin_ge_0.
    - unfold Rdiv. apply Rmult_le_pos; [ | lra].
      apply Rmult_le_pos; [ | lra]. apply Rmult_le_pos; lra.
    - assert (incl * PI / 180 / 2 = (incl / 360) * PI) by (field).
      rewrite H0. assert (incl / 360 <= 1) by (unfold Rdiv; lra).
      assert (0 <= incl / 360) by (unfold Rdiv; lra). nra. }
  pose proof (sqrt_pos (398600.4418 / radius_km target)). nra.
Qed.

(** Between equal radii both burns vanish. *)
Lemma hohmann_same (r : R) :
  0 < r -> hohmann_dv1 r r = 0 /\ hohmann_dv2 r r = 0.
Proof.
  intro Hr.
  assert (E : MU_EARTH * (2 / r - 2 / (r + r)) = MU_EARTH / r) by (field; lra).
  unfold hohmann_dv1, hohmann_dv2. rewrite E.
  rewrite !Rminus_diag, Rabs_R0. split; ring.
Qed.

(** Difference of two square roots of numbers in [[7.5^2, 8^2]]. *)
Lemma sqrt_diff_bounds (x y : R) :
  56.25 <= y -> y <= x -> x <= 64 ->
  (x - y) / 16 <= sqrt x - sqrt y <= (x - y) / 15.
Proof.
  intros Hy Hyx Hx.
  pose proof (sqrt_bounds 7.5 8 x ltac:(lra) ltac:(lra) ltac:(lra) ltac:(lra)).
  pose proof (sqrt_bounds 7.5 8 y ltac:(lra) ltac:(lra) ltac:(lra) ltac:(lra)).
  pose proof (sqrt_sqrt x ltac:(lra)) as Sx.
  pose proof (sqrt_sqrt y ltac:(lra)) as Sy.
  assert (Hst : sqrt y <= sqrt x) by (apply sqrt_le_1; lra).
  set (s := sqrt x) in *. set (t := sqrt y) in *.
  assert (Hd : x - y = (s - t) * (s + t)) by nra.
  rewrite Hd. unfold Rdiv. split; nra.
Qed.

(** The Hohmann transfer from 6766 km to 6771 km costs about 2.83 m/s. *)
Lemma hohmann_6766_6771_bounds :
  0 < hohmann_dv1 6766 6771 /\ 0 < hohmann_dv2 6766 6771 /\
  2 < hohmann_dv1 6766 6771 + hohmann_dv2 6766 6771 < 3.
Proof.
  assert (A1 : MU_EARTH * (2 / 6766 - 2 / (6766 + 6771)) - MU_EARTH / 6766
               = MU_EARTH * 5 / (6766 * 13537)) by (field).
  assert (A2 : MU_EARTH / 6771 - MU_EARTH * (2 / 6771 - 2 / (6766 + 6771))
               = MU_EARTH * 5 / (6771 * 13537)) by (field).
  unfold MU_EARTH in *.
  pose proof (sqrt_diff_bounds (398600.4418 * (2 / 6766 - 2 / (6766 + 6771)))
                (398600.4418 / 6766) ltac:(lra) ltac:(lra) ltac:(lra)) as B1.
  pose proof (sqrt_diff_bounds (398600.4418 / 6771)
                (398600.4418 * (2 / 6771 - 2 / (6766 + 6771)))
                ltac:(lra) ltac:(lra) ltac:(lra)) as B2.
  rewrite A1 in B1. rewrite A2 in B2.
  unfold hohmann_dv1, hohmann_dv2, MU_EARTH.
  rewrite !Rabs_right by lra.
  lra.
Qed.

End DeltaVFacts.

Module SimulatorFacts.
Import Simulator.

Lemma update_stopped (dt : R) (rnd : R * R) (s : SimState) :
  is_running s = false -> update_simulation_state dt rnd s = s.
Proof. intro H. unfold update_simulation_state. rewrite H. reflexivity. Qed.

Lemma run_stopped (steps : list (R * (R * R))) (s : SimState) :
  is_running s = false -> run steps s = s.
Proof.
  revert s. induction steps as [ | st rest IH]; intros s H; [reflexivity | ].
  unfold run. simpl. rewrite update_stopped by assumption. apply IH. assumption.
Qed.

(** Unfolds one running call of [update_simulation_state] into its five
    phase branches. *)
Ltac update_cases s rnd :=
  unfold update_simulation_state, ASCENT_END, TNI_ACTIVATION_END,
    ORBITAL_INSERTION_END, TNI_DISCONNECT_END;
  destruct (is_running s) eqn:Hrun; cbn [negb];
  [ destruct rnd as [u1 u2];
    repeat match goal with |- context [Rlt_dec ?a ?b] => destruct (Rlt_dec a b) end
  | ].

Lemma update_multiplier (dt : R) (rnd : R * R) (s : SimState) :
  current_speed_multiplier (update_simulation_state dt rnd s) = current_speed_multiplier s.
Proof. update_cases s rnd; reflexivity. Qed.

Lemma update_time (dt : R) (rnd : R * R) (s : SimState) :
  is_running s = true ->
  time_s (update_simulation_state dt rnd s) = time_s s + dt * current_speed_multiplier s.
Proof. intro H. update_cases s rnd; first [reflexivity | congruence]. Qed.

Lemma update_phase_set (dt : R) (rnd : R * R) (s : SimState) :
  is_running s = true -> current_phase (update_simulation_state dt rnd s) <> PRE_LAUNCH.
Proof. intro H. update_cases s rnd; first [discriminate | congruence]. Qed.

Lemma update_stops (dt : R) (rnd : R * R) (s : SimState) :
  is_running s = true -> is_running (update_simulation_state dt rnd s) = false ->
  current_phase (update_simulation_state dt rnd s) = NOMINAL_ORBIT.
Proof. intros H. update_cases s rnd; simpl; intro H'; first [reflexivity | congruence]. Qed.

Lemma update_running_phase (dt : R) (rnd : R * R) (s : SimState) :
  is_running s = true -> is_running (update_simulation_state dt rnd s) = true ->
  current_phase (update_simulation_state dt rnd s) <> NOMINAL_ORBIT.
Proof. intros H. update_cases s rnd; simpl; intro H'; first [discriminate | congruence]. Qed.

Lemma update_consistent (dt : R) (rnd : R * R) (s : SimState) :
  consistent s -> consistent (update_simulation_state dt rnd s).
Proof.
  intro Hc. update_cases s rnd; [ .. | exact Hc];
    unfold consistent; cbn; repeat split; try reflexivity; try lra.
Qed.

Lemma toggle_consistent (s : SimState) : consistent s -> consistent (toggle_running s).
Proof. intro Hc. exact Hc. Qed.

Lemma speed_consistent (d : Z) (s : SimState) :
  consistent s -> consistent (handle_speed_change d s).
Proof.
  intro Hc. unfold handle_speed_change.
  destruct (_ && _)%bool; exact Hc.
Qed.

Lemma reachable_consistent (s : SimState) : reachable s -> consistent s.
Proof.
  induction 1.
  - unfold consistent. simpl. lra.
  - apply update_consistent. assumption.
  - apply toggle_consistent. assumption.
  - apply speed_consistent. assumption.
Qed.

Lemma started_consistent : consistent started.
Proof. unfold consistent. simpl. lra. Qed.

Lemma sum_dt_nonneg (steps : list (R * (R * R))) :
  Forall (fun st => 0 <= fst st) steps -> 0 <= sum_dt steps.
Proof.
  induction 1 as [ | st rest Hst _ IH]; simpl; lra.
Qed.

Lemma run_consistent (steps : list (R * (R * R))) (s : SimState) :
  consistent s -> consistent (run steps s).
Proof.
  revert s. induction steps as [ | st rest IH]; intros s Hc; [exact Hc | ].
  unfold run. simpl. apply IH. apply update_consistent. assumption.
Qed.

(** Running at speed 1x, the clock advances by the sum of the [dt] values
    until the call that reaches 310 s, which stops the simulator. *)
Lemma run_progress (steps : list (R * (R * R))) (s : SimState) :
  is_running s = true -> current_speed_multiplier s = 1 ->
  Forall (fun st => 0 <= fst st) steps ->
  (steps <> [] -> current_phase (run steps s) <> PRE_LAUNCH) /\
  ((is_running (run steps s) = true /\ time_s (run steps s) = time_s s + sum_dt steps
    /\ (steps <> [] -> current_phase (run steps s) <> NOMINAL_ORBIT))
   \/ (is_running (run steps s) = false
       /\ current_phase (run steps s) = NOMINAL_ORBIT
       /\ time_s (run steps s) <= time_s s + sum_dt steps)).
Proof.
  revert s. induction steps as [ | [dt rnd] rest IH]; intros s Hr Hm Hf.
  - split; [congruence | left; split; [assumption | split; [simpl; lra | congruence]]].
  - inversion Hf as [ | ? ? Hdt Hrest]; subst. simpl in Hdt.
    pose proof (sum_dt_nonneg rest Hrest) as Hsum.
    set (s1 := update_simulation_state dt rnd s).
    assert (Ht1 : time_s s1 = time_s s + dt).
    { unfold s1. rewrite update_time, Hm by assumption. ring. }
    assert (Hm1 : current_speed_multiplier s1 = 1).
    { unfold s1. rewrite update_multiplier. assumption. }
    assert (Hp1 : current_phase s1 <> PRE_LAUNCH) by (apply update_phase_set; assumption).
    assert (Hn1 : is_running s1 = true -> current_phase s1 <> NOMINAL_ORBIT)
      by (apply update_running_phase; assumption).
    change (run ((dt, rnd) :: rest) s) with (run rest s1).
    simpl sum_dt.
    destruct (is_running s1) eqn:Hr1.
    + destruct (IH s1 Hr1 Hm1 Hrest) as [IHp IHt].
      split.
      * intros _. destruct rest as [ | st rest']; [exact Hp1 | apply IHp; discriminate].
      * destruct IHt as [[A [B C]] | [A [B C]]]; [left | right].
        -- split; [assumption | split; [lra | ]].
           intros _. destruct rest as [ | st rest']; [apply Hn1; first [reflexivity | assumption] | apply C; discriminate].
        -- repeat split; try assumption; lra.
    + rewrite run_stopped by assumption.
      split; [intros _; assumption | right].
      split; [assumption | split; [apply update_stops; assumption | lra]].
Qed.

Lemma Int_part_5 : Int_part 5 = 5%Z.
Proof.
  unfold Int_part. rewrite <- (tech_up 5 6); [reflexivity | | ]; simpl; lra.
Qed.

End SimulatorFacts.

(** ** The claims *)

Module Claims.
Import DeltaV Closed DeltaVFacts.

(** Shared facts about the concrete scenario with both vehicles at 400 km. *)

Lemma orbit400_radius : radius_km orbit400 = 6771.
Proof. unfold radius_km, orbit400. simpl. lra. Qed.

Lemma orbit400_breakdowns (sep incl : R) :
  calculate_standard_rendezvous orbit400 orbit400 sep incl
    = Ok (std_breakdown sep 0 (plane_term orbit400 incl) (log_term sep)) /\
  calculate_tni_rendezvous orbit400 orbit400 sep incl
    = Ok (tni_breakdown sep 0 (plane_term orbit400 incl) (log_term sep)).
Proof.
  rewrite calculate_standard_rendezvous_ok, calculate_tni_rendezvous_ok
    by (rewrite orbit400_radius; lra).
  rewrite orbit400_radius.
  destruct (hohmann_same 6771 ltac:(lra)) as [E1 E2]. rewrite E1, E2, Rplus_0_r.
  split; reflexivity.
Qed.

(** C1 (as stated, refuted): with an inclination difference of 540 degrees,
    [sin(radians(540) / 2) = -1] makes the plane-change term negative, and the
    standard total falls below the TNI total. *)
Lemma C1_counterexample :
  ~ (forall (chaser target : OrbitParams) (sep incl : R) (bs bt : DeltaVBreakdown),
       0 <= sep -> 0 <= incl -> 0 < radius_km chaser -> 0 < radius_km target ->
       calculate_standard_rendezvous chaser target sep incl = Ok bs ->
       calculate_tni_rendezvous chaser target sep incl = Ok bt ->
       total bt <= total bs).
Proof.
  intro Hall.
  destruct (orbit400_breakdowns 0 540) as [Es Et].
  pose proof (Hall orbit400 orbit400 0 540 _ _ ltac:(lra) ltac:(lra)
                ltac:(rewrite orbit400_radius; lra) ltac:(rewrite orbit400_radius; lra) Es Et)
    as Hle.
  pose proof (totals_gap 0 0 (plane_term orbit400 540) (log_term 0)) as G.
  pose proof log_term_0 as L0.
  assert (Hp : plane_term orbit400 540 <= -2000).
  { unfold plane_term, plane_change, radians.
    destruct (Rlt_dec 0 540) as [_ | n]; [ | lra].
    replace (540 * PI / 180 / 2) with (3 * (PI / 2)) by field.
    rewrite sin_3PI2, orbit400_radius.
    pose proof (sqrt_bounds 1 8 (398600.4418 / 6771) ltac:(lra) ltac:(lra) ltac:(lra) ltac:(lra)).
    lra. }
  lra.
Qed.

(** C1 (amended): for positive radii, [separation_km >= 0] and an
    inclination difference in [[0, 360]] degrees, both rendezvous models
    return a breakdown and the standard total exceeds the TNI total by at
    least 18.862 m/s. *)
Theorem C1_standard_total_ge_tni_total (chaser target : OrbitParams) (sep incl : R) :
  0 < radius_km chaser -> 0 < radius_km target ->
  0 <= sep -> 0 <= incl -> incl <= 360 ->
  exists bs bt : DeltaVBreakdown,
    calculate_standard_rendezvous chaser target sep incl = Ok bs /\
    calculate_tni_rendezvous chaser target sep incl = Ok bt /\
    18.862 <= total bs - total bt.
Proof.
  intros Hc Ht Hsep Hi0 Hi1.
  rewrite calculate_standard_rendezvous_ok, calculate_tni_rendezvous_ok by assumption.
  eexists _, _. split; [reflexivity | split; [reflexivity | ]].
  rewrite totals_gap.
  pose proof (hohmann_dv1_nonneg (radius_km chaser) (radius_km target)).
  pose proof (hohmann_dv2_nonneg (radius_km chaser) (radius_km target)).
  pose proof (plane_term_nonneg target incl Hi1).
  pose proof (log_term_nonneg sep).
  lra.
Qed.

Lemma C1_witness :
  exists bs bt : DeltaVBreakdown,
    calculate_standard_rendezvous orbit400 orbit400 100 1 = Ok bs /\
    calculate_tni_rendezvous orbit400 orbit400 100 1 = Ok bt /\
    18.862 <= total bs - total bt.
Proof.
  apply C1_standard_total_ge_tni_total; rewrite ?orbit400_radius; lra.
Defined.

(** C3 (as stated, refuted): [DeltaVBreakdown] is a plain mutable dataclass.
    Assigning [search_acquisition] on a breakdown returned by
    [calculate_standard_rendezvous] leaves the stored [safety_margin] at its
    old value, which is then neither 22% nor 9% of the other six fields. *)
Lemma C3_counterexample :
  exists b : DeltaVBreakdown,
    calculate_standard_rendezvous orbit400 orbit400 0 0 = Ok b /\
    safety_margin (set_search_acquisition b 9) <> 0.22 * sum6 (set_search_acquisition b 9) /\
    safety_margin (set_search_acquisition b 9) <> 0.09 * sum6 (set_search_acquisition b 9).
Proof.
  destruct (orbit400_breakdowns 0 0) as [Es _].
  eexists. split; [exact Es | ].
  unfold set_search_acquisition, sum6, std_breakdown, plane_term. simpl.
  rewrite log_term_0.
  destruct (Rlt_dec 0 0) as [r | _]; [lra | ].
  split; lra.
Qed.

(** Splits every [bind] and branch of a computation assumed to return [Ok]. *)
Ltac ok_cases H :=
  repeat match type of H with
    | context [match ?m with Ok _ => _ | Err _ => _ end] => destruct m
    | context [match ?p with (_, _) => _ end] => destruct p
    | context [if ?c then _ else _] => destruct c
    | Err _ = Ok _ => discriminate H
    end.

(** C3 (amended): every breakdown returned by [calculate_standard_rendezvous]
    has [safety_margin] equal to 22% of the other six fields, and every one
    returned by [calculate_tni_rendezvous] 9%; the field is computed once,
    when the breakdown is built. *)
Theorem C3_safety_margin_fraction :
  (forall (chaser target : OrbitParams) (sep incl : R) (b : DeltaVBreakdown),
     calculate_standard_rendezvous chaser target sep incl = Ok b ->
     safety_margin b = 0.22 * sum6 b) /\
  (forall (chaser target : OrbitParams) (sep incl : R) (b : DeltaVBreakdown),
     calculate_tni_rendezvous chaser target sep incl = Ok b ->
     safety_margin b = 0.09 * sum6 b).
Proof.
  split; intros chaser target sep incl b H.
  - unfold calculate_standard_rendezvous, bind in H. ok_cases H.
    all: try discriminate H.
    all: injection H as <-; unfold sum6; simpl; lra.
  - unfold calculate_tni_rendezvous, bind in H. ok_cases H.
    all: try discriminate H.
    all: injection H as <-; unfold sum6; simpl; lra.
Qed.

Lemma C3_witness :
  exists b : DeltaVBreakdown,
    calculate_standard_rendezvous orbit400 orbit400 50 0 = Ok b /\
    safety_margin b = 0.22 * sum6 b.
Proof.
  destruct (orbit400_breakdowns 50 0) as [Es _].
  exists (std_breakdown 50 0 (plane_term orbit400 0) (log_term 50)).
  split; [exact Es | ].
  exact (proj1 C3_safety_margin_fraction orbit400 orbit400 50 0 _ Es).
Defined.

(** Shared evaluation lemmas for C4, C5, C7 and C10. *)
Lemma phasing_maneuver_ok (r a : R) :
  5 < r -> phasing_maneuver r a = Ok (hohmann_dv1 r (r - 5) + hohmann_dv1 (r - 5) r).
Proof.
  intro Hr. unfold phasing_maneuver. cbv zeta.
  rewrite hohmann_transfer_ok by lra. cbn [bind].
  rewrite hohmann_transfer_ok by lra. reflexivity.
Qed.

Lemma ve_nonzero (isp g0 : R) : isp <> 0 -> 0 < g0 -> isp * g0 <> 0.
Proof. intros Hi Hg. apply Rmult_integral_contrapositive_currified; lra. Qed.

Lemma calculate_propellant_mass_ok (dv dry isp : R) :
  isp <> 0 ->
  calculate_propellant_mass dv dry isp = Ok (dry * (exp (dv / (isp * 9.80665)) - 1)).
Proof.
  intro Hi. unfold calculate_propellant_mass. cbv zeta.
  pose proof (ve_nonzero isp 9.80665 Hi ltac:(lra)) as Hve.
  rewrite py_div_ok by exact Hve. cbn [bind]. unfold py_exp. cbn [bind].
  pose proof (exp_pos (- dv / (isp * 9.80665))) as Hpos.
  rewrite py_div_ok by lra. cbn [bind]. f_equal.
  replace (- dv / (isp * 9.80665)) with (- (dv / (isp * 9.80665))) by (unfold Rdiv; ring).
  rewrite exp_Ropp. unfold Rdiv at 1. rewrite Rinv_inv. ring.
Qed.

Lemma calculate_propellant_mass_isp0 (dv dry : R) :
  calculate_propellant_mass dv dry 0 = Err ZeroDivisionError.
Proof.
  unfold calculate_propellant_mass. cbv zeta.
  replace (0 * 9.80665) with 0 by lra. rewrite py_div_zero. reflexivity.
Qed.

Lemma calculate_propellant_cost_savings_ok (dv isp dry : R) :
  isp <> 0 ->
  Performance.calculate_propellant_cost_savings dv isp dry
  = Ok (dry * (exp (dv / (isp * 9.81)) - 1), dry * (exp (dv / (isp * 9.81)) - 1) * 0.50).
Proof.
  intro Hi. unfold Performance.calculate_propellant_cost_savings. cbv zeta.
  rewrite py_div_ok by (apply ve_nonzero; lra). reflexivity.
Qed.

(** The rocket equation grows with [dv] and shrinks with the exhaust
    velocity. *)
Lemma rocket_lt (dry x y : R) :
  0 < dry -> x < y -> dry * (exp x - 1) < dry * (exp y - 1).
Proof. intros Hd Hxy. pose proof (exp_increasing x y Hxy). nra. Qed.

Lemma ratio_lt (dv isp g1 g2 : R) :
  0 < dv -> 0 < isp -> 0 < g1 -> g1 < g2 -> dv / (isp * g2) < dv / (isp * g1).
Proof.
  intros Hdv Hi H1 H12. unfold Rdiv. apply Rmult_lt_compat_l; [exact Hdv | ].
  apply Rinv_lt_contravar; [ | nra].
  apply Rmult_lt_0_compat; apply Rmult_lt_0_compat; lra.
Qed.

(** C4 (as stated, refuted): at [r_km = 6771] the result is not the sum of
    both full Hohmann transfers: the code keeps only the first burn of each. *)
Lemma C4_counterexample :
  ~ (forall r a : R, 5 < r ->
       exists d1 d2 u1 u2 : R,
         hohmann_transfer r (r - 5) = Ok (d1, d2) /\
         hohmann_transfer (r - 5) r = Ok (u1, u2) /\
         phasing_maneuver r a = Ok (d1 + d2 + u1 + u2)).
Proof.
  intro Hall.
  destruct (Hall 6771 0 ltac:(lra)) as (d1 & d2 & u1 & u2 & E1 & E2 & E3).
  rewrite hohmann_transfer_ok in E1, E2 by lra.
  rewrite phasing_maneuver_ok in E3 by lra.
  injection E1 as <- <-. injection E2 as <- <-. injection E3 as E3.
  pose proof (hohmann_dv2_pos 6771 (6771 - 5) ltac:(lra) ltac:(lra) ltac:(lra)).
  pose proof (hohmann_dv2_pos (6771 - 5) 6771 ltac:(lra) ltac:(lra) ltac:(lra)).
  lra.
Qed.

(** C4 (amended): for [r_km > 5], [phasing_maneuver] adds the first burn of
    the transfer down to [r_km - 5] and the first burn of the transfer back
    up.  That sum equals the full delta-v of one transfer between the two
    radii and is strictly less than the full drop-then-raise total.  The
    result does not depend on [phase_angle_deg]. *)
Theorem C4_phasing_first_burns (r a : R) :
  5 < r ->
  (forall a' : R, phasing_maneuver r a' = phasing_maneuver r a) /\
  exists d1 d2 u1 u2 : R,
    hohmann_transfer r (r - 5) = Ok (d1, d2) /\
    hohmann_transfer (r - 5) r = Ok (u1, u2) /\
    phasing_maneuver r a = Ok (d1 + u1) /\
    d1 + u1 = d1 + d2 /\
    d1 + u1 < d1 + d2 + u1 + u2.
Proof.
  intro Hr. split.
  - intro a'. rewrite !phasing_maneuver_ok by lra. reflexivity.
  - exists (hohmann_dv1 r (r - 5)), (hohmann_dv2 r (r - 5)),
      (hohmann_dv1 (r - 5) r), (hohmann_dv2 (r - 5) r).
    rewrite !hohmann_transfer_ok by lra. rewrite phasing_maneuver_ok by lra.
    rewrite (hohmann_dv1_swap r (r - 5)).
    pose proof (hohmann_dv2_pos r (r - 5) ltac:(lra) ltac:(lra) ltac:(lra)).
    pose proof (hohmann_dv2_pos (r - 5) r ltac:(lra) ltac:(lra) ltac:(lra)).
    repeat split; first [reflexivity | lra].
Qed.

Lemma C4_witness :
  (forall a' : R, phasing_maneuver 6771 a' = phasing_maneuver 6771 30) /\
  exists d1 d2 u1 u2 : R,
    hohmann_transfer 6771 (6771 - 5) = Ok (d1, d2) /\
    hohmann_transfer (6771 - 5) 6771 = Ok (u1, u2) /\
    phasing_maneuver 6771 30 = Ok (d1 + u1) /\
    d1 + u1 = d1 + d2 /\
    d1 + u1 < d1 + d2 + u1 + u2.
Proof. apply C4_phasing_first_burns. lra. Defined.

(** C5 (as stated, refuted): a negative dry mass is not rejected;
    [calculate_propellant_mass 0 (-1) 380] returns [0]. *)
Lemma C5_counterexample :
  ~ (forall dv dry isp : R, dry <= 0 \/ isp <= 0 ->
       exists e : PyExn, calculate_propellant_mass dv dry isp = Err e).
Proof.
  intro Hall. destruct (Hall 0 (-1) 380 ltac:(lra)) as [e E].
  rewrite calculate_propellant_mass_ok in E by lra. discriminate E.
Qed.

(** C5 (amended): no input is validated.  [calculate_propellant_mass]
    raises [ZeroDivisionError] for [isp_s = 0], and for every [isp_s <> 0]
    with [|dv_ms / (isp_s * 9.80665)| <= 700] (no overflow or underflow of
    [math.exp]) it returns the rocket-equation value, whatever the signs of
    [dv_ms], [dry_mass_kg] and [isp_s].  [OrbitParams.velocity_ms] returns
    a value for every positive radius (negative altitudes above -6371 km
    included), raises [ZeroDivisionError] at radius 0 and [ValueError]
    (math domain error) for a negative radius. *)
Theorem C5_no_input_validation :
  (forall dv dry isp : R, isp <> 0 -> Rabs (dv / (isp * 9.80665)) <= 700 ->
     calculate_propellant_mass dv dry isp = Ok (dry * (exp (dv / (isp * 9.80665)) - 1))) /\
  (forall dv dry : R, calculate_propellant_mass dv dry 0 = Err ZeroDivisionError) /\
  (forall o : OrbitParams, 0 < radius_km o ->
     velocity_ms o = Ok (sqrt (398600.4418 / radius_km o) * 1000)) /\
  (forall o : OrbitParams, radius_km o = 0 -> velocity_ms o = Err ZeroDivisionError) /\
  (forall o : OrbitParams, radius_km o < 0 -> velocity_ms o = Err ValueError).
Proof.
  split; [intros dv dry isp Hi _; exact (calculate_propellant_mass_ok dv dry isp Hi) | ].
  split; [exact calculate_propellant_mass_isp0 | ].
  split; [exact velocity_ms_ok | ].
  split.
  - intros o Ho. unfold velocity_ms. cbv zeta. rewrite Ho, py_div_zero. reflexivity.
  - intros o Ho. unfold velocity_ms. cbv zeta.
    rewrite py_div_ok by lra. cbn [bind].
    rewrite py_sqrt_neg; [reflexivity | ].
    unfold Rdiv. pose proof (Rinv_lt_0_compat _ Ho). nra.
Qed.

Lemma C5_witness :
  calculate_propellant_mass 0 (-1) 380 = Ok (-1 * (exp (0 / (380 * 9.80665)) - 1)) /\
  velocity_ms (mkOrbitParams (-100) 0)
    = Ok (sqrt (398600.4418 / radius_km (mkOrbitParams (-100) 0)) * 1000) /\
  velocity_ms (mkOrbitParams (-7000) 0) = Err ValueError.
Proof.
  split; [ | split].
  - apply (proj1 C5_no_input_validation); [lra | ].
    unfold Rdiv. rewrite Rmult_0_l, Rabs_R0. lra.
  - apply (proj1 (proj2 (proj2 C5_no_input_validation))). unfold radius_km. simpl. lra.
  - apply (proj2 (proj2 (proj2 (proj2 C5_no_input_validation)))). unfold radius_km. simpl. lra.
Defined.

(** C6: above the Earth's surface both burns are non-negative and the total
    of the transfer equals the total of the reverse transfer. *)
Theorem C6_hohmann_nonneg_symmetric (r1 r2 : R) :
  EARTH_RADIUS < r1 -> EARTH_RADIUS < r2 ->
  exists d1 d2 e1 e2 : R,
    hohmann_transfer r1 r2 = Ok (d1, d2) /\
    hohmann_transfer r2 r1 = Ok (e1, e2) /\
    0 <= d1 /\ 0 <= d2 /\ d1 + d2 = e1 + e2.
Proof.
  unfold EARTH_RADIUS. intros H1 H2.
  exists (hohmann_dv1 r1 r2), (hohmann_dv2 r1 r2), (hohmann_dv1 r2 r1), (hohmann_dv2 r2 r1).
  rewrite !hohmann_transfer_ok by lra.
  rewrite (hohmann_dv1_swap r1 r2), (hohmann_dv2_swap r1 r2).
  pose proof (hohmann_dv1_nonneg r1 r2). pose proof (hohmann_dv2_nonneg r1 r2).
  repeat split; first [reflexivity | assumption | ring].
Qed.

Lemma C6_witness :
  exists d1 d2 e1 e2 : R,
    hohmann_transfer 6766 6771 = Ok (d1, d2) /\
    hohmann_transfer 6771 6766 = Ok (e1, e2) /\
    0 <= d1 /\ 0 <= d2 /\ d1 + d2 = e1 + e2.
Proof. apply C6_hohmann_nonneg_symmetric; unfold EARTH_RADIUS; lra. Defined.

(** C7: for a positive dry mass and specific impulse, the propellant mass
    is [0] at [dv_ms = 0] and strictly increasing on [dv_ms >= 0]. *)
Theorem C7_propellant_mass_increasing (dry isp : R) :
  0 < dry -> 0 < isp ->
  calculate_propellant_mass 0 dry isp = Ok 0 /\
  (forall a b : R, 0 <= a -> a < b ->
     exists x y : R,
       calculate_propellant_mass a dry isp = Ok x /\
       calculate_propellant_mass b dry isp = Ok y /\ x < y).
Proof.
  intros Hd Hi. split.
  - rewrite calculate_propellant_mass_ok by lra. f_equal.
    unfold Rdiv. rewrite Rmult_0_l, exp_0. ring.
  - intros a b Ha Hab.
    rewrite !calculate_propellant_mass_ok by lra.
    eexists _, _. split; [reflexivity | split; [reflexivity | ]].
    apply rocket_lt; [exact Hd | ].
    unfold Rdiv. apply Rmult_lt_compat_r; [ | exact Hab].
    apply Rinv_0_lt_compat. apply Rmult_lt_0_compat; lra.
Qed.

Lemma C7_witness :
  calculate_propellant_mass 0 100000 380 = Ok 0 /\
  (forall a b : R, 0 <= a -> a < b ->
     exists x y : R,
       calculate_propellant_mass a 100000 380 = Ok x /\
       calculate_propellant_mass b 100000 380 = Ok y /\ x < y).
Proof. apply C7_propellant_mass_increasing; lra. Defined.

(** C8 (as stated, refuted): the Hohmann transfer from 6766 km to 6771 km
    costs more than 2 m/s in total (about 2.83 m/s), not under about 1 m/s. *)
Lemma C8_counterexample :
  ~ (exists d1 d2 : R,
       hohmann_transfer 6766 6771 = Ok (d1, d2) /\ 0 < d1 /\ 0 < d2 /\ d1 + d2 < 2).
Proof.
  intros (d1 & d2 & E & _ & _ & Hs).
  rewrite hohmann_transfer_ok in E by lra. injection E as <- <-.
  pose proof hohmann_6766_6771_bounds. lra.
Qed.

(** C8 (amended): for chaser altitude 395 km and target altitude 400 km
    (radii 6766 km and 6771 km), 50 km separation and no inclination
    difference, the Hohmann transfer returns two strictly positive burns
    whose sum lies between 2 and 3 m/s, and the standard total strictly
    exceeds the TNI total. *)
Theorem C8_leo_depot_scenario :
  radius_km (mkOrbitParams 395 0) = 6766 /\ radius_km (mkOrbitParams 400 0) = 6771 /\
  (exists d1 d2 : R,
     hohmann_transfer 6766 6771 = Ok (d1, d2) /\ 0 < d1 /\ 0 < d2 /\ 2 < d1 + d2 < 3) /\
  (exists bs bt : DeltaVBreakdown,
     calculate_standard_rendezvous (mkOrbitParams 395 0) (mkOrbitParams 400 0) 50 0 = Ok bs /\
     calculate_tni_rendezvous (mkOrbitParams 395 0) (mkOrbitParams 400 0) 50 0 = Ok bt /\
     total bt < total bs).
Proof.
  assert (Rc : radius_km (mkOrbitParams 395 0) = 6766) by (unfold radius_km; simpl; lra).
  assert (Rt : radius_km (mkOrbitParams 400 0) = 6771) by (unfold radius_km; simpl; lra).
  pose proof hohmann_6766_6771_bounds as B.
  split; [exact Rc | split; [exact Rt | split]].
  - exists (hohmann_dv1 6766 6771), (hohmann_dv2 6766 6771).
    rewrite hohmann_transfer_ok by lra. split; [reflexivity | lra].
  - rewrite calculate_standard_rendezvous_ok, calculate_tni_rendezvous_ok
      by (rewrite ?Rc, ?Rt; lra).
    eexists _, _. split; [reflexivity | split; [reflexivity | ]].
    apply totals_gap_pos.
    + lra.
    + rewrite Rc, Rt. lra.
    + unfold plane_term. destruct (Rlt_dec 0 0); lra.
    + apply log_term_nonneg.
Qed.

(** C10 (as stated, refuted): the two rocket-equation implementations use
    different standard gravities (9.80665 and 9.81) and disagree at
    [dv = 100], [dry_mass_kg = 1], [isp_s = 380]. *)
Lemma C10_counterexample :
  ~ (forall dv dry isp : R, 0 <= dv -> 0 < dry -> 0 < isp ->
       exists m c : R,
         calculate_propellant_mass dv dry isp = Ok m /\
         Performance.calculate_propellant_cost_savings dv isp dry = Ok (m, c)).
Proof.
  intro Hall. destruct (Hall 100 1 380 ltac:(lra) ltac:(lra) ltac:(lra)) as (m & c & E1 & E2).
  rewrite calculate_propellant_mass_ok in E1 by lra. injection E1 as <-.
  rewrite calculate_propellant_cost_savings_ok in E2 by lra. injection E2 as E2 _.
  pose proof (rocket_lt 1 _ _ ltac:(lra)
                (ratio_lt 100 380 9.80665 9.81 ltac:(lra) ltac:(lra) ltac:(lra) ltac:(lra))).
  lra.
Qed.

(** C10 (amended): both functions compute [m_dry * (e^(dv/ve) - 1)], with
    [ve = isp_s * 9.80665] in [calculate_propellant_mass] and
    [ve = isp * 9.81] in [calculate_propellant_cost_savings].  They agree at
    [dv = 0] and, for [dv > 0], the second is strictly smaller. *)
Theorem C10_rocket_equations_differ_in_g0 (dv dry isp : R) :
  0 <= dv -> 0 < dry -> 0 < isp ->
  exists m p c : R,
    calculate_propellant_mass dv dry isp = Ok m /\
    Performance.calculate_propellant_cost_savings dv isp dry = Ok (p, c) /\
    m = dry * (exp (dv / (isp * 9.80665)) - 1) /\
    p = dry * (exp (dv / (isp * 9.81)) - 1) /\
    (dv = 0 -> m = p) /\
    (0 < dv -> p < m).
Proof.
  intros Hdv Hd Hi.
  rewrite calculate_propellant_mass_ok, calculate_propellant_cost_savings_ok by lra.
  eexists _, _, _.
  split; [reflexivity | split; [reflexivity | split; [reflexivity | split; [reflexivity | ]]]].
  split.
  - intros ->. unfold Rdiv. rewrite !Rmult_0_l. reflexivity.
  - intro Hpos. apply rocket_lt; [exact Hd | ].
    apply ratio_lt; lra.
Qed.

Lemma C10_witness :
  exists m p c : R,
    calculate_propellant_mass 100 1 380 = Ok m /\
    Performance.calculate_propellant_cost_savings 100 380 1 = Ok (p, c) /\
    m = 1 * (exp (100 / (380 * 9.80665)) - 1) /\
    p = 1 * (exp (100 / (380 * 9.81)) - 1) /\
    (100 = 0 -> m = p) /\
    (0 < 100 -> p < m).
Proof. apply C10_rocket_equations_differ_in_g0; lra. Defined.

End Claims.

(** ** The claims about the mission phase simulator *)

Module SimulatorClaims.
Import Simulator SimulatorFacts.

Lemma started_running : is_running started = true.
Proof. reflexivity. Qed.

Lemma started_multiplier : current_speed_multiplier started = 1.
Proof. unfold started, toggle_running, init_state. simpl. lra. Qed.

Lemma started_time : time_s started = 0.
Proof. unfold started, toggle_running, init_state. simpl. lra. Qed.

(** Where a run from [started] ends, by the sum of its [dt] values. *)
Lemma run_started_cases (steps : list (R * (R * R))) :
  Forall (fun st => 0 <= fst st) steps ->
  consistent (run steps started) /\
  (steps <> [] -> current_phase (run steps started) <> PRE_LAUNCH) /\
  ((is_running (run steps started) = true /\ time_s (run steps started) = sum_dt steps
    /\ (steps <> [] -> current_phase (run steps started) <> NOMINAL_ORBIT))
   \/ (is_running (run steps started) = false
       /\ current_phase (run steps started) = NOMINAL_ORBIT
       /\ time_s (run steps started) <= sum_dt steps)).
Proof.
  intro Hf.
  destruct (run_progress steps started started_running started_multiplier Hf) as [Hp Ht].
  rewrite started_time, Rplus_0_l in Ht.
  split; [apply run_consistent, started_consistent | split; assumption].
Qed.

(** C2 (as stated, refuted): one call with [dt = 150] already leaves the
    ASCENT window, which is half-open: the phase is TNI_ACTIVATION. *)
Lemma C2_counterexample :
  ~ (forall steps : list (R * (R * R)),
       Forall (fun st => 0 <= fst st) steps -> sum_dt steps = 150 ->
       current_phase (run steps started) = ASCENT).
Proof.
  intro Hall.
  set (steps := [(150, (0, 0))] : list (R * (R * R))).
  assert (Hf : Forall (fun st => 0 <= fst st) steps) by (repeat constructor; simpl; lra).
  assert (Hs : sum_dt steps = 150) by (simpl; lra).
  pose proof (Hall steps Hf Hs) as Ha.
  destruct (run_started_cases steps Hf) as (Hc & _ & Hcase).
  unfold consistent in Hc. rewrite Ha in Hc.
  destruct Hcase as [(_ & Ht & _) | (_ & Hn & _)]; [lra | congruence].
Qed.

(** C2 (amended): started at [t = 0] and running at 1x, after calls with
    non-negative [dt] summing to [T]: for [T < 150] (at least one call) the
    phase is ASCENT; at [T = 150] it is already TNI_ACTIVATION; at
    [T = 160] it is TNI_ACTIVATION with [active_links = 5], inside
    [[0, 10]]; for [T >= 310] it is NOMINAL_ORBIT and [is_running] is
    false. *)
Theorem C2_phase_timeline (steps : list (R * (R * R))) :
  Forall (fun st => 0 <= fst st) steps ->
  (steps <> [] -> sum_dt steps < 150 -> current_phase (run steps started) = ASCENT) /\
  (sum_dt steps = 150 -> current_phase (run steps started) = TNI_ACTIVATION) /\
  (sum_dt steps = 160 ->
     current_phase (run steps started) = TNI_ACTIVATION /\
     active_links (run steps started) = 5%Z /\
     (0 <= active_links (run steps started) <= 10)%Z) /\
  (310 <= sum_dt steps ->
     current_phase (run steps started) = NOMINAL_ORBIT /\
     is_running (run steps started) = false).
Proof.
  intro Hf. pose proof (sum_dt_nonneg steps Hf) as H0.
  destruct (run_started_cases steps Hf) as (Hc & Hpre & Hcase).
  set (s := run steps started) in *.
  assert (Hne : sum_dt steps <> 0 -> steps <> []) by (intros Hz ->; apply Hz; reflexivity).
  unfold consistent in Hc.
  split; [ | split; [ | split]].
  - intros Hn Hlt. specialize (Hpre Hn).
    destruct Hcase as [(_ & Ht & _) | (_ & Hnom & Ht)];
      [ | rewrite Hnom in Hc; lra].
    destruct (current_phase s); intuition lra.
  - intros Heq. specialize (Hpre (Hne ltac:(lra))).
    destruct Hcase as [(_ & Ht & _) | (_ & Hnom & Ht)];
      [ | rewrite Hnom in Hc; lra].
    destruct (current_phase s); intuition lra.
  - intros Heq. specialize (Hpre (Hne ltac:(lra))).
    destruct Hcase as [(_ & Ht & _) | (_ & Hnom & Ht)];
      [ | rewrite Hnom in Hc; lra].
    destruct (current_phase s) eqn:Hph; try (exfalso; intuition lra).
    destruct Hc as (_ & _ & _ & Hl).
    assert (Hlinks : active_links s = 5%Z).
    { rewrite Hl, Ht, Heq.
      replace ((160 - 150) * 0.5) with 5 by lra.
      unfold py_int. destruct (Rle_dec 0 5) as [_ | n]; [ | lra].
      rewrite Int_part_5. reflexivity. }
    split; [reflexivity | split; [exact Hlinks | rewrite Hlinks; lia]].
  - intros Hge.
    destruct Hcase as [(_ & Ht & Hnn) | (Hr & Hnom & _)]; [ | split; assumption].
    specialize (Hnn (Hne ltac:(lra))).
    exfalso. destruct (current_phase s); intuition lra.
Qed.

Lemma C2_witness :
  Forall (fun st => 0 <= fst st) [(100%R, (0%R, 0%R)); (60%R, (0%R, 0%R))] /\
  ((([(100%R, (0%R, 0%R)); (60%R, (0%R, 0%R))] : list (R * (R * R))) <> [] ->
      sum_dt [(100%R, (0%R, 0%R)); (60%R, (0%R, 0%R))] < 150 ->
      current_phase (run [(100%R, (0%R, 0%R)); (60%R, (0%R, 0%R))] started) = ASCENT) /\
   (sum_dt [(100%R, (0%R, 0%R)); (60%R, (0%R, 0%R))] = 150 ->
      current_phase (run [(100%R, (0%R, 0%R)); (60%R, (0%R, 0%R))] started) = TNI_ACTIVATION) /\
   (sum_dt [(100%R, (0%R, 0%R)); (60%R, (0%R, 0%R))] = 160 ->
      current_phase (run [(100%R, (0%R, 0%R)); (60%R, (0%R, 0%R))] started) = TNI_ACTIVATION /\
      active_links (run [(100%R, (0%R, 0%R)); (60%R, (0%R, 0%R))] started) = 5%Z /\
      (0 <= active_links (run [(100%R, (0%R, 0%R)); (60%R, (0%R, 0%R))] started) <= 10)%Z) /\
   (310 <= sum_dt [(100%R, (0%R, 0%R)); (60%R, (0%R, 0%R))] ->
      current_phase (run [(100%R, (0%R, 0%R)); (60%R, (0%R, 0%R))] started) = NOMINAL_ORBIT /\
      is_running (run [(100%R, (0%R, 0%R)); (60%R, (0%R, 0%R))] started) = false)).
Proof.
  assert (Hf : Forall (fun st : R * (R * R) => 0 <= fst st)
                 [(100%R, (0%R, 0%R)); (60%R, (0%R, 0%R))]) by (repeat constructor; simpl; lra).
  split; [exact Hf | exact (C2_phase_timeline _ Hf)].
Defined.

(** One running call whose new time falls in the orbital-insertion window. *)
Lemma update_orbital (dt u1 u2 : R) (s : SimState) :
  is_running s = true ->
  170 <= time_s s + dt * current_speed_multiplier s < 290 ->
  update_simulation_state dt (u1, u2) s
  = mkSimState (time_s s + dt * current_speed_multiplier s) true ORBITAL_INSERTION
      (200 + (time_s s + dt * current_speed_multiplier s - 170) * 0.91)
      (0.03 + u1 * 0.02) (0.002 + u2 * 0.001) (45 * (1 - (0.03 + u1 * 0.02) / 25))
      (active_links s) (is_tni_active s) (speed_index s) (current_speed_multiplier s).
Proof.
  intros Hr Ht. unfold update_simulation_state, ASCENT_END, TNI_ACTIVATION_END,
    ORBITAL_INSERTION_END, TNI_DISCONNECT_END.
  rewrite Hr. cbn [negb].
  destruct (Rlt_dec _ 150); [lra | ].
  destruct (Rlt_dec _ 170); [lra | ].
  destruct (Rlt_dec _ 290); [reflexivity | lra].
Qed.

(** C9 (as stated, refuted): at [t = 200 s] (orbital insertion) a call with
    [dt = 0] redraws the position error from [random.random()]: with the
    draws [0] and then [1/2] the position error moves from 0.03 m to
    0.04 m. *)
Lemma C9_counterexample :
  ~ (forall (s : SimState) (rnd : R * R), reachable s ->
       observable (update_simulation_state 0 rnd s) = observable s).
Proof.
  intro Hall.
  set (s1 := update_simulation_state 200 (0, 0) started).
  assert (Hreach : reachable s1).
  { apply reach_update; [apply reach_toggle, reach_init | lra | lra | lra]. }
  assert (E1 : s1 = mkSimState (time_s started + 200 * current_speed_multiplier started) true
                     ORBITAL_INSERTION
                     (200 + (time_s started + 200 * current_speed_multiplier started - 170) * 0.91)
                     (0.03 + 0 * 0.02) (0.002 + 0 * 0.001) (45 * (1 - (0.03 + 0 * 0.02) / 25))
                     (active_links started) (is_tni_active started) (speed_index started)
                     (current_speed_multiplier started)).
  { apply update_orbital; [reflexivity | unfold started, toggle_running, init_state; simpl; lra]. }
  pose proof (Hall s1 (1 / 2, 1 / 2) Hreach) as Heq.
  rewrite E1 in Heq. rewrite update_orbital in Heq;
    [ | reflexivity | unfold started, toggle_running, init_state; simpl; lra].
  unfold observable in Heq. simpl in Heq.
  injection Heq as _ _ Hpos _ _. lra.
Qed.

(** C9 (amended): for every reachable state that has been through at least
    one update, a call with [dt = 0] leaves the observable state unchanged,
    except in ORBITAL_INSERTION.  There, time, phase, altitude and active
    links stay the same, while the position and velocity errors are redrawn
    from the new random values and the delta-v saved is recomputed from
    them. *)
Theorem C9_zero_step (s : SimState) (u1 u2 : R) :
  reachable s ->
  (current_phase s <> PRE_LAUNCH -> current_phase s <> ORBITAL_INSERTION ->
     observable (update_simulation_state 0 (u1, u2) s) = observable s) /\
  (current_phase s = ORBITAL_INSERTION -> is_running s = true ->
     time_s (update_simulation_state 0 (u1, u2) s) = time_s s /\
     current_phase (update_simulation_state 0 (u1, u2) s) = ORBITAL_INSERTION /\
     altitude_km (update_simulation_state 0 (u1, u2) s) = altitude_km s /\
     active_links (update_simulation_state 0 (u1, u2) s) = active_links s /\
     position_error_m (update_simulation_state 0 (u1, u2) s) = 0.03 + u1 * 0.02 /\
     velocity_error_mps (update_simulation_state 0 (u1, u2) s) = 0.002 + u2 * 0.001 /\
     dv_saved_mps (update_simulation_state 0 (u1, u2) s)
       = 45 * (1 - (0.03 + u1 * 0.02) / 25)).
Proof.
  intro Hreach. pose proof (reachable_consistent s Hreach) as Hc.
  destruct s as [t run ph alt pos vel dv links tni idx mult].
  unfold consistent in Hc. cbn [time_s current_phase altitude_km position_error_m
    velocity_error_mps dv_saved_mps active_links] in Hc.
  split.
  - intros Hpre Horb. cbn [current_phase] in Hpre, Horb.
    destruct run; [ | rewrite update_stopped; reflexivity].
    unfold update_simulation_state, ASCENT_END, TNI_ACTIVATION_END,
      ORBITAL_INSERTION_END, TNI_DISCONNECT_END.
    cbn [is_running negb time_s current_speed_multiplier].
    rewrite Rmult_0_l, Rplus_0_r.
    destruct ph; try congruence;
      repeat match goal with H : _ /\ _ |- _ => destruct H end; subst;
      repeat (destruct (Rlt_dec _ _); try lra);
      reflexivity.
  - intros Hph Hrun. cbn [current_phase is_running] in Hph, Hrun. subst ph run.
    destruct Hc as [Ht Halt].
    rewrite update_orbital; [ | reflexivity | simpl; lra].
    simpl. rewrite Rmult_0_l, Rplus_0_r.
    repeat split; first [reflexivity | lra].
Qed.

Lemma C9_witness :
  reachable (update_simulation_state 100 (0, 0) started) /\
  current_phase (update_simulation_state 100 (0, 0) started) = ASCENT /\
  observable (update_simulation_state 0 (0, 0) (update_simulation_state 100 (0, 0) started))
  = observable (update_simulation_state 100 (0, 0) started).
Proof.
  assert (Hr : reachable (update_simulation_state 100 (0, 0) started)).
  { apply reach_update; [apply reach_toggle, reach_init | lra | lra | lra]. }
  assert (Hp : current_phase (update_simulation_state 100 (0, 0) started) = ASCENT).
  { unfold update_simulation_state, ASCENT_END. rewrite started_running. cbn [negb].
    destruct (Rlt_dec _ 150) as [_ | n]; [reflexivity | ].
    exfalso. apply n. rewrite started_time, started_multiplier. lra. }
  split; [exact Hr | split; [exact Hp | ]].
  apply (proj1 (C9_zero_step _ 0 0 Hr)); rewrite Hp; discriminate.
Defined.

End SimulatorClaims.

(** ** Further properties of the code *)


Module DeltaVExtras.
Import DeltaV Closed DeltaVFacts.

(** X1: a transfer between equal radii costs nothing. *)
Theorem hohmann_transfer_same_orbit (r : R) :
  0 < r -> hohmann_transfer r r = Ok (0, 0).
Proof.
  intro Hr. rewrite hohmann_transfer_ok by assumption.
  destruct (hohmann_same r Hr) as [A B]. rewrite A, B. reflexivity.
Qed.

Lemma hohmann_transfer_same_orbit_witness :
  0 < 6771 /\ hohmann_transfer 6771 6771 = Ok (0, 0).
Proof. split; [lra | apply (hohmann_transfer_same_orbit 6771); lra]. Defined.

(** X2: a zero radius raises [ZeroDivisionError]. *)
Theorem hohmann_transfer_zero_radius (r : R) :
  hohmann_transfer 0 r = Err ZeroDivisionError /\
  (0 < r -> hohmann_transfer r 0 = Err ZeroDivisionError).
Proof.
  split.
  - unfold hohmann_transfer. rewrite py_div_zero. reflexivity.
  - intro Hr. unfold hohmann_transfer. rewrite Rplus_0_r.
    assert (A : 0 <= MU_EARTH / r) by (apply circular_arg_nonneg; assumption).
    assert (B : 0 <= MU_EARTH * (2 / r - 2 / r)) by (rewrite Rminus_diag; lra).
    py_eval. rewrite py_div_zero. reflexivity.
Qed.

Lemma hohmann_transfer_zero_radius_witness :
  0 < 6771 /\ hohmann_transfer 6771 0 = Err ZeroDivisionError.
Proof. split; [lra | apply (proj2 (hohmann_transfer_zero_radius 6771)); lra]. Defined.

(** X3: the plane change costs nothing at 0 degrees, twice the speed at 180
    degrees, the same for [a] and [360 - a], and never more than [2 |v|]. *)
Theorem plane_change_shape (v a : R) :
  plane_change v 0 = 0 /\ plane_change v 180 = 2 * v /\
  plane_change v (360 - a) = plane_change v a /\
  Rabs (plane_change v a) <= 2 * Rabs v.
Proof.
  unfold plane_change, radians. repeat split.
  - replace (0 * PI / 180 / 2) with 0 by (unfold Rdiv; ring). rewrite sin_0. ring.
  - replace (180 * PI / 180 / 2) with (PI / 2) by field. rewrite sin_PI2. ring.
  - replace ((360 - a) * PI / 180 / 2) with (PI - a * PI / 180 / 2) by field.
    rewrite sin_PI_x. reflexivity.
  - set (x := a * PI / 180 / 2).
    rewrite !Rabs_mult, (Rabs_right 2) by lra.
    pose proof (SIN_bound x).
    assert (Rabs (sin x) <= 1) by (apply Rabs_le; lra).
    pose proof (Rabs_pos v). pose proof (Rabs_pos (sin x)). nra.
Qed.

(** X4: the orbital speed falls as the altitude rises. *)
Theorem velocity_ms_decreasing (o1 o2 : OrbitParams) :
  -6371 < altitude_km o1 -> altitude_km o1 < altitude_km o2 ->
  exists v1 v2, velocity_ms o1 = Ok v1 /\ velocity_ms o2 = Ok v2 /\ v2 < v1.
Proof.
  intros H1 H12.
  assert (R1 : 0 < radius_km o1) by (unfold radius_km; lra).
  assert (R2 : 0 < radius_km o2) by (unfold radius_km; lra).
  assert (R12 : radius_km o1 < radius_km o2) by (unfold radius_km; lra).
  rewrite (velocity_ms_ok o1 R1), (velocity_ms_ok o2 R2).
  eexists; eexists; split; [reflexivity | split; [reflexivity | ]].
  assert (/ radius_km o2 < / radius_km o1) by (apply Rinv_lt_contravar; nra).
  assert (0 < / radius_km o2) by (apply Rinv_0_lt_compat; lra).
  assert (sqrt (398600.4418 / radius_km o2) < sqrt (398600.4418 / radius_km o1)).
  { apply sqrt_lt_1; unfold Rdiv; nra. }
  lra.
Qed.

Lemma velocity_ms_decreasing_witness :
  -6371 < altitude_km (mkOrbitParams 395 0) /\
  altitude_km (mkOrbitParams 395 0) < altitude_km (mkOrbitParams 400 0) /\
  exists v1 v2, velocity_ms (mkOrbitParams 395 0) = Ok v1 /\
    velocity_ms (mkOrbitParams 400 0) = Ok v2 /\ v2 < v1.
Proof.
  split; [simpl; lra | split; [simpl; lra | ]].
  apply velocity_ms_decreasing; simpl; lra.
Defined.

(** X5: the two rendezvous models fail together, with the same exception,
    and when they succeed the TNI Hohmann term is 0.7 times and the TNI
    plane-change term 0.85 times the standard one. *)
Theorem rendezvous_models_related (chaser target : OrbitParams) (sep incl : R) :
  match calculate_standard_rendezvous chaser target sep incl,
        calculate_tni_rendezvous chaser target sep incl with
  | Ok bs, Ok bt =>
      hohmann_transfer_dv bt = hohmann_transfer_dv bs * 0.7 /\
      plane_change_dv bt = plane_change_dv bs * 0.85
  | Err e1, Err e2 => e1 = e2
  | _, _ => False
  end.
Proof.
  unfold calculate_standard_rendezvous, calculate_tni_rendezvous.
  destruct (hohmann_transfer (radius_km chaser) (radius_km target)) as [[d1 d2] | e];
    cbn [bind]; [ | reflexivity].
  destruct (Rlt_dec 0 incl).
  - destruct (velocity_ms target) as [v | e]; cbn [bind]; [ | reflexivity].
    rewrite py_log10_ok by apply Rmax_1_pos. cbn [bind]. simpl. split; reflexivity.
  - cbn [bind]. rewrite py_log10_ok by apply Rmax_1_pos. cbn [bind]. simpl.
    split; [reflexivity | lra].
Qed.

Lemma log_term_le (s1 s2 : R) : s1 <= s2 -> log_term s1 <= log_term s2.
Proof.
  intro H. unfold log_term.
  assert (H10 : 0 < ln 10) by (rewrite <- ln_1; apply ln_increasing; lra).
  assert (Hm : Rmax 1 s1 <= Rmax 1 s2).
  { unfold Rmax. destruct (Rle_dec 1 s1), (Rle_dec 1 s2); lra. }
  pose proof (Rmax_1_pos s1).
  assert (ln (Rmax 1 s1) <= ln (Rmax 1 s2)).
  { destruct (Req_dec (Rmax 1 s1) (Rmax 1 s2)) as [E | NE].
    - rewrite E. lra.
    - left. apply ln_increasing; lra. }
  unfold Rdiv. apply Rmult_le_compat_r; [left; apply Rinv_0_lt_compat | ]; lra.
Qed.

(** X6: a larger separation makes both totals, and the savings, strictly
    larger. *)
Theorem totals_increase_with_separation (chaser target : OrbitParams) (incl s1 s2 : R) :
  0 < radius_km chaser -> 0 < radius_km target -> s1 < s2 ->
  exists bs1 bt1 bs2 bt2,
    calculate_standard_rendezvous chaser target s1 incl = Ok bs1 /\
    calculate_tni_rendezvous chaser target s1 incl = Ok bt1 /\
    calculate_standard_rendezvous chaser target s2 incl = Ok bs2 /\
    calculate_tni_rendezvous chaser target s2 incl = Ok bt2 /\
    total bs1 < total bs2 /\ total bt1 < total bt2 /\
    total bs1 - total bt1 < total bs2 - total bt2.
Proof.
  intros Hc Ht H12.
  rewrite !calculate_standard_rendezvous_ok, !calculate_tni_rendezvous_ok by assumption.
  do 4 eexists. do 4 (split; [reflexivity | ]).
  pose proof (log_term_le s1 s2 ltac:(lra)).
  rewrite !totals_gap.
  unfold total, std_breakdown, tni_breakdown. simpl.
  repeat split; lra.
Qed.

Lemma totals_increase_with_separation_witness :
  0 < radius_km orbit400 /\ 0 < radius_km orbit400 /\ 50 < 100 /\
  exists bs1 bt1 bs2 bt2,
    calculate_standard_rendezvous orbit400 orbit400 50 0 = Ok bs1 /\
    calculate_tni_rendezvous orbit400 orbit400 50 0 = Ok bt1 /\
    calculate_standard_rendezvous orbit400 orbit400 100 0 = Ok bs2 /\
    calculate_tni_rendezvous orbit400 orbit400 100 0 = Ok bt2 /\
    total bs1 < total bs2 /\ total bt1 < total bt2 /\
    total bs1 - total bt1 < total bs2 - total bt2.
Proof.
  assert (H : 0 < radius_km orbit400) by (unfold radius_km; simpl; lra).
  split; [exact H | split; [exact H | split; [lra | ]]].
  apply totals_increase_with_separation; first [exact H | lra].
Defined.

End DeltaVExtras.

Module ScenarioExtras.
Import DeltaV Scenario.

Lemma VE_pos : 0 < VE.
Proof. unfold VE. lra. Qed.

Lemma propellant_380 (dv m : R) :
  calculate_propellant_mass dv m 380 = Ok (m * (exp (dv / VE) - 1)).
Proof. apply Claims.calculate_propellant_mass_ok. lra. Qed.

Lemma py_int_floor (x : R) :
  0 <= x -> IZR (Simulator.py_int x) <= x < IZR (Simulator.py_int x) + 1.
Proof.
  intro Hx. unfold Simulator.py_int. destruct (Rle_dec 0 x); [ | lra].
  pose proof (base_Int_part x). lra.
Qed.

Lemma print_scenario_ok (standard tni : DeltaVBreakdown) (m : R) :
  total standard <> 0 ->
  let P := m * (exp (total standard / VE) - 1) - m * (exp (total tni / VE) - 1) in
  print_scenario standard tni m
  = Ok (mkScenarioSummary (total standard - total tni)
          ((total standard - total tni) / total standard * 100) P (P * 0.50) (P * 2940)
          (if Rle_dec 260 P then Some (Simulator.py_int (P / 260)) else None)).
Proof.
  intros Hs P. unfold print_scenario. rewrite py_div_ok by exact Hs. cbn [bind].
  rewrite !propellant_380. cbn [bind]. fold P.
  destruct (Rle_dec 260 P); [rewrite py_div_ok by lra | ]; reflexivity.
Qed.

(** The rocket equation of [b] subtracted from that of [a] is at least the
    rocket equation of [a - b]. *)
Lemma rocket_difference (m a b : R) :
  0 < m -> 0 <= b -> b <= a ->
  m * (exp (a - b) - 1) <= m * (exp a - 1) - m * (exp b - 1)
  /\ (0 < b -> b < a -> m * (exp (a - b) - 1) < m * (exp a - 1) - m * (exp b - 1)).
Proof.
  intros Hm Hb Hba.
  assert (E : exp a = exp b * exp (a - b)) by (rewrite <- exp_plus; f_equal; ring).
  pose proof (exp_ineq1_le b). pose proof (exp_ineq1_le (a - b)).
  rewrite E. split.
  - assert (0 <= (exp b - 1) * (exp (a - b) - 1)) by (apply Rmult_le_pos; lra). nra.
  - intros Hb' Hba'.
    assert (1 < exp b) by (rewrite <- exp_0; apply exp_increasing; lra).
    assert (1 < exp (a - b)) by (rewrite <- exp_0; apply exp_increasing; lra).
    assert (0 < (exp b - 1) * (exp (a - b) - 1)) by (apply Rmult_lt_0_compat; lra). nra.
Qed.

(** X7: the propellant [print_scenario] reports as saved has the sign of the
    delta-v saved. *)
Theorem print_scenario_prop_saved_sign (standard tni : DeltaVBreakdown) (m : R) :
  0 < m -> total standard <> 0 ->
  exists r, print_scenario standard tni m = Ok r /\
    savings r = total standard - total tni /\
    (0 < savings r <-> 0 < prop_saved r) /\
    (savings r = 0 <-> prop_saved r = 0) /\
    (savings r < 0 <-> prop_saved r < 0).
Proof.
  intros Hm Hs. rewrite (print_scenario_ok standard tni m Hs). cbv zeta.
  eexists. split; [reflexivity | ]. cbn [savings prop_saved].
  pose proof VE_pos as Hve.
  set (S := total standard) in *. set (T := total tni).
  assert (Hlt : forall x y, x < y -> exp (x / VE) < exp (y / VE)).
  { intros x y Hxy. apply exp_increasing. unfold Rdiv.
    apply Rmult_lt_compat_r; [apply Rinv_0_lt_compat | ]; lra. }
  split; [reflexivity | ].
  destruct (Rtotal_order S T) as [L | [E | G]].
  - pose proof (Hlt S T L). repeat split; intro; nra.
  - rewrite E. repeat split; intro; nra.
  - pose proof (Hlt T S G). repeat split; intro; nra.
Qed.

Lemma print_scenario_prop_saved_sign_witness :
  0 < 100000 /\ total (mkDeltaVBreakdown 30 0 0 0 0 0 0) <> 0 /\
  exists r, print_scenario (mkDeltaVBreakdown 30 0 0 0 0 0 0)
              (mkDeltaVBreakdown 10 0 0 0 0 0 0) 100000 = Ok r /\
    savings r = total (mkDeltaVBreakdown 30 0 0 0 0 0 0)
                - total (mkDeltaVBreakdown 10 0 0 0 0 0 0) /\
    (0 < savings r <-> 0 < prop_saved r) /\
    (savings r = 0 <-> prop_saved r = 0) /\
    (savings r < 0 <-> prop_saved r < 0).
Proof.
  assert (H : total (mkDeltaVBreakdown 30 0 0 0 0 0 0) <> 0) by (unfold total; simpl; lra).
  split; [lra | split; [exact H | ]].
  apply print_scenario_prop_saved_sign; [lra | exact H].
Defined.

(** X8: [prop_saved] is at least the propellant of the delta-v saved alone,
    and strictly more when the TNI total is positive. *)
Theorem print_scenario_prop_saved_ge (standard tni : DeltaVBreakdown) (m : R) :
  0 < m -> 0 <= total tni -> total tni <= total standard -> total standard <> 0 ->
  exists r p, print_scenario standard tni m = Ok r /\
    calculate_propellant_mass (total standard - total tni) m 380 = Ok p /\
    p <= prop_saved r /\
    (0 < total tni -> total tni < total standard -> p < prop_saved r).
Proof.
  intros Hm Ht Hts Hs. rewrite (print_scenario_ok standard tni m Hs), propellant_380.
  cbv zeta. do 2 eexists. split; [reflexivity | split; [reflexivity | ]].
  cbn [prop_saved]. pose proof VE_pos as Hve.
  replace ((total standard - total tni) / VE)
    with (total standard / VE - total tni / VE) by (field; lra).
  assert (Hd : forall x y, x <= y -> x / VE <= y / VE).
  { intros x y Hxy. unfold Rdiv. apply Rmult_le_compat_r; [left; apply Rinv_0_lt_compat | ]; lra. }
  assert (Hd' : forall x y, x < y -> x / VE < y / VE).
  { intros x y Hxy. unfold Rdiv. apply Rmult_lt_compat_r; [apply Rinv_0_lt_compat | ]; lra. }
  destruct (rocket_difference m (total standard / VE) (total tni / VE) Hm) as [A B].
  - replace 0 with (0 / VE) by (unfold Rdiv; ring). apply Hd. exact Ht.
  - apply Hd. exact Hts.
  - split; [exact A | intros H1 H2; apply B].
    + replace 0 with (0 / VE) by (unfold Rdiv; ring). apply Hd'. exact H1.
    + apply Hd'. exact H2.
Qed.

Lemma print_scenario_prop_saved_ge_witness :
  exists r p, print_scenario (mkDeltaVBreakdown 30 0 0 0 0 0 0)
                (mkDeltaVBreakdown 10 0 0 0 0 0 0) 100000 = Ok r /\
    calculate_propellant_mass (total (mkDeltaVBreakdown 30 0 0 0 0 0 0)
                               - total (mkDeltaVBreakdown 10 0 0 0 0 0 0)) 100000 380 = Ok p /\
    p <= prop_saved r /\
    (0 < total (mkDeltaVBreakdown 10 0 0 0 0 0 0) ->
     total (mkDeltaVBreakdown 10 0 0 0 0 0 0) < total (mkDeltaVBreakdown 30 0 0 0 0 0 0) ->
     p < prop_saved r).
Proof.
  apply print_scenario_prop_saved_ge; unfold total; simpl; lra.
Defined.

(** X9: the propellant for [dv1 + dv2] is the propellant for [dv2] plus the
    propellant for [dv1] carried on top of it, as in a staged burn. *)
Theorem calculate_propellant_mass_staging (dv1 dv2 dry isp : R) :
  isp <> 0 ->
  exists m2 m1 m12,
    calculate_propellant_mass dv2 dry isp = Ok m2 /\
    calculate_propellant_mass dv1 (dry + m2) isp = Ok m1 /\
    calculate_propellant_mass (dv1 + dv2) dry isp = Ok m12 /\
    m12 = m2 + m1.
Proof.
  intro Hi. do 3 eexists.
  split; [rewrite (Claims.calculate_propellant_mass_ok dv2 dry isp Hi); reflexivity | ].
  split; [rewrite (Claims.calculate_propellant_mass_ok dv1 _ isp Hi); reflexivity | ].
  split; [rewrite (Claims.calculate_propellant_mass_ok (dv1 + dv2) dry isp Hi); reflexivity | ].
  rewrite Rdiv_plus_distr, exp_plus. ring.
Qed.

Lemma calculate_propellant_mass_staging_witness :
  380 <> 0 /\
  exists m2 m1 m12,
    calculate_propellant_mass 10 100000 380 = Ok m2 /\
    calculate_propellant_mass 20 (100000 + m2) 380 = Ok m1 /\
    calculate_propellant_mass (20 + 10) 100000 380 = Ok m12 /\
    m12 = m2 + m1.
Proof. split; [lra | apply calculate_propellant_mass_staging; lra]. Defined.

(** X10: the extra-satellite line is printed exactly when [prop_saved]
    reaches 260 kg, and then shows [floor (prop_saved / 260)], at least 1. *)
Theorem print_scenario_extra_sats (standard tni : DeltaVBreakdown) (m : R) :
  total standard <> 0 ->
  exists r, print_scenario standard tni m = Ok r /\
    match extra_sats r with
    | Some n => 260 <= prop_saved r /\ (1 <= n)%Z /\
                260 * IZR n <= prop_saved r < 260 * (IZR n + 1)
    | None => prop_saved r < 260
    end.
Proof.
  intro Hs. rewrite (print_scenario_ok standard tni m Hs). cbv zeta.
  eexists. split; [reflexivity | ]. cbn [extra_sats prop_saved].
  set (P := m * (exp (total standard / VE) - 1) - m * (exp (total tni / VE) - 1)).
  destruct (Rle_dec 260 P) as [H | H]; [ | lra].
  pose proof (py_int_floor (P / 260) ltac:(unfold Rdiv; lra)) as [F1 F2].
  assert (0 < IZR (Simulator.py_int (P / 260))) by (unfold Rdiv in *; lra).
  apply lt_IZR in H0.
  repeat split; [lra | lia | unfold Rdiv in *; lra | unfold Rdiv in *; lra].
Qed.

Lemma print_scenario_extra_sats_witness :
  total (mkDeltaVBreakdown 30 0 0 0 0 0 0) <> 0 /\
  exists r, print_scenario (mkDeltaVBreakdown 30 0 0 0 0 0 0)
              (mkDeltaVBreakdown 10 0 0 0 0 0 0) 100000 = Ok r /\
    match extra_sats r with
    | Some n => 260 <= prop_saved r /\ (1 <= n)%Z /\
                260 * IZR n <= prop_saved r < 260 * (IZR n + 1)
    | None => prop_saved r < 260
    end.
Proof.
  assert (H : total (mkDeltaVBreakdown 30 0 0 0 0 0 0) <> 0) by (unfold total; simpl; lra).
  split; [exact H | apply print_scenario_extra_sats; exact H].
Defined.

(** Tangent line of [exp]. *)
Lemma exp_tangent (a x : R) : exp a * (1 + (x - a)) <= exp x.
Proof.
  pose proof (exp_ineq1_le (x - a)). pose proof (exp_pos a).
  replace (exp x) with (exp a * exp (x - a)) by (rewrite <- exp_plus; f_equal; ring).
  nra.
Qed.

(** X11: the annual propellant figure of [main] (the rocket equation of the
    average delta-v saved, times 100) never exceeds 100 times the average of
    the [prop_saved] values [print_scenario] reports for the four
    scenarios. *)
Theorem fleet_analysis_understates
    (s1 s2 s3 s4 t1 t2 t3 t4 : DeltaVBreakdown) :
  0 <= total t1 <= total s1 -> 0 <= total t2 <= total s2 ->
  0 <= total t3 <= total s3 -> 0 <= total t4 <= total s4 ->
  0 < total s1 -> 0 < total s2 -> 0 < total s3 -> 0 < total s4 ->
  exists avg annual r1 r2 r3 r4,
    fleet_analysis s1 s2 s3 s4 t1 t2 t3 t4 = Ok (avg, annual) /\
    print_scenario s1 t1 100000 = Ok r1 /\ print_scenario s2 t2 100000 = Ok r2 /\
    print_scenario s3 t3 100000 = Ok r3 /\ print_scenario s4 t4 100000 = Ok r4 /\
    annual <= 100 * ((prop_saved r1 + prop_saved r2 + prop_saved r3 + prop_saved r4) / 4).
Proof.
  intros H1 H2 H3 H4 P1 P2 P3 P4.
  rewrite (print_scenario_ok s1 t1 100000), (print_scenario_ok s2 t2 100000),
    (print_scenario_ok s3 t3 100000), (print_scenario_ok s4 t4 100000) by lra.
  unfold fleet_analysis. rewrite py_div_ok by lra. cbn [bind].
  rewrite propellant_380. cbn [bind]. cbv zeta.
  do 6 eexists. do 5 (split; [reflexivity | ]). cbn [prop_saved].
  pose proof VE_pos as Hve.
  assert (Hd : forall x y, x <= y -> x / VE <= y / VE).
  { intros x y Hxy. unfold Rdiv. apply Rmult_le_compat_r; [left; apply Rinv_0_lt_compat | ]; lra. }
  assert (Hrd : forall s t, 0 <= total t <= total s ->
            100000 * (exp ((total s - total t) / VE) - 1)
            <= 100000 * (exp (total s / VE) - 1) - 100000 * (exp (total t / VE) - 1)).
  { intros s t [Ht Hts].
    replace ((total s - total t) / VE) with (total s / VE - total t / VE) by (field; lra).
    apply (rocket_difference 100000 (total s / VE) (total t / VE)); [lra | | ].
    - replace 0 with (0 / VE) by (unfold Rdiv; ring). apply Hd. exact Ht.
    - apply Hd. exact Hts. }
  pose proof (Hrd s1 t1 H1). pose proof (Hrd s2 t2 H2).
  pose proof (Hrd s3 t3 H3). pose proof (Hrd s4 t4 H4).
  set (d1 := (total s1 - total t1) / VE) in *. set (d2 := (total s2 - total t2) / VE) in *.
  set (d3 := (total s3 - total t3) / VE) in *. set (d4 := (total s4 - total t4) / VE) in *.
  set (a := ((total s1 + total s2 + total s3 + total s4) / 4
             - (total t1 + total t2 + total t3 + total t4) / 4) / VE).
  assert (Ha : a = (d1 + d2 + d3 + d4) / 4) by (unfold a, d1, d2, d3, d4; field; lra).
  assert (J : exp a * 4 <= exp d1 + exp d2 + exp d3 + exp d4).
  { pose proof (exp_tangent a d1). pose proof (exp_tangent a d2).
    pose proof (exp_tangent a d3). pose proof (exp_tangent a d4).
    assert (E : d1 + d2 + d3 + d4 = 4 * a) by (rewrite Ha; field). nra. }
  clear Ha. lra.
Qed.

Lemma fleet_analysis_understates_witness :
  exists avg annual r1 r2 r3 r4,
    fleet_analysis (mkDeltaVBreakdown 30 0 0 0 0 0 0) (mkDeltaVBreakdown 60 0 0 0 0 0 0)
      (mkDeltaVBreakdown 40 0 0 0 0 0 0) (mkDeltaVBreakdown 80 0 0 0 0 0 0)
      (mkDeltaVBreakdown 10 0 0 0 0 0 0) (mkDeltaVBreakdown 25 0 0 0 0 0 0)
      (mkDeltaVBreakdown 15 0 0 0 0 0 0) (mkDeltaVBreakdown 30 0 0 0 0 0 0)
    = Ok (avg, annual) /\
    print_scenario (mkDeltaVBreakdown 30 0 0 0 0 0 0) (mkDeltaVBreakdown 10 0 0 0 0 0 0) 100000 = Ok r1 /\
    print_scenario (mkDeltaVBreakdown 60 0 0 0 0 0 0) (mkDeltaVBreakdown 25 0 0 0 0 0 0) 100000 = Ok r2 /\
    print_scenario (mkDeltaVBreakdown 40 0 0 0 0 0 0) (mkDeltaVBreakdown 15 0 0 0 0 0 0) 100000 = Ok r3 /\
    print_scenario (mkDeltaVBreakdown 80 0 0 0 0 0 0) (mkDeltaVBreakdown 30 0 0 0 0 0 0) 100000 = Ok r4 /\
    annual <= 100 * ((prop_saved r1 + prop_saved r2 + prop_saved r3 + prop_saved r4) / 4).
Proof.
  apply fleet_analysis_understates; unfold total; simpl; try split; lra.
Defined.

End ScenarioExtras.

Module MetricsExtras.

(** X12: the two versions of [calculate_delta_v_saved]. *)
Theorem delta_v_saved_versions (b t : R) :
  Metrics.calculate_delta_v_saved b t = Ok (b * 0.99) /\
  (t = 0 -> Calc.calculate_delta_v_saved b t = Err ZeroDivisionError) /\
  (t <> 0 -> Calc.calculate_delta_v_saved b t = Ok 9.9) /\
  (Metrics.calculate_delta_v_saved b t = Calc.calculate_delta_v_saved b t
   <-> t <> 0 /\ b = 10).
Proof.
  assert (M : Metrics.calculate_delta_v_saved b t = Ok (b * 0.99)).
  { unfold Metrics.calculate_delta_v_saved. rewrite py_div_ok by lra. cbn [bind].
    f_equal. lra. }
  assert (C : t <> 0 -> Calc.calculate_delta_v_saved b t = Ok 9.9).
  { intro Ht. unfold Calc.calculate_delta_v_saved. rewrite py_div_ok by exact Ht.
    cbn [bind]. rewrite py_div_ok by lra. cbn [bind]. f_equal. lra. }
  assert (Z0 : t = 0 -> Calc.calculate_delta_v_saved b t = Err ZeroDivisionError).
  { intro Ht. subst t. unfold Calc.calculate_delta_v_saved. rewrite py_div_zero.
    reflexivity. }
  split; [exact M | split; [exact Z0 | split; [exact C | ]]].
  rewrite M. destruct (Req_dec t 0) as [Ht | Ht].
  - rewrite (Z0 Ht). split; [discriminate | intros [H _]; contradiction].
  - rewrite (C Ht). split.
    + intro E. injection E as E. split; [exact Ht | lra].
    + intros [_ E]. subst b. f_equal. lra.
Qed.

Lemma delta_v_saved_versions_witness :
  Metrics.calculate_delta_v_saved 10 0.1 = Calc.calculate_delta_v_saved 10 0.1 /\
  Calc.calculate_delta_v_saved 45 0 = Err ZeroDivisionError.
Proof.
  split.
  - apply (proj2 (proj2 (proj2 (proj2 (delta_v_saved_versions 10 0.1))))). split; lra.
  - apply (proj1 (proj2 (delta_v_saved_versions 45 0))). reflexivity.
Defined.

(** X14: for a non-negative delta-v saved, the payload gain is 400 kg per
    m/s, its value 2940 USD per kg, and the satellite count is the whole
    number of 260 kg satellites in the payload gain. *)
Theorem mission_value_savings_floor (dv : R) :
  0 <= dv ->
  exists v, Metrics.calculate_mission_value_savings dv = Ok v /\
    Metrics.payload_gain_kg v = dv * 400 /\
    Metrics.payload_value_usd v = Metrics.payload_gain_kg v * 2940 /\
    (0 <= Metrics.extra_satellites v)%Z /\
    260 * IZR (Metrics.extra_satellites v) <= Metrics.payload_gain_kg v
    < 260 * (IZR (Metrics.extra_satellites v) + 1).
Proof.
  intro Hdv. unfold Metrics.calculate_mission_value_savings.
  rewrite py_div_ok by lra. cbn [bind].
  eexists. split; [reflexivity | ]. cbn.
  pose proof (ScenarioExtras.py_int_floor (dv * 400 / 260) ltac:(unfold Rdiv; nra)) as [F1 F2].
  assert (-1 < IZR (Simulator.py_int (dv * 400 / 260))) by (unfold Rdiv in *; nra).
  apply lt_IZR in H.
  split; [reflexivity | split; [reflexivity | split; [lia | ]]].
  unfold Rdiv in *. split; lra.
Qed.

Lemma mission_value_savings_floor_witness :
  0 <= 30 /\
  exists v, Metrics.calculate_mission_value_savings 30 = Ok v /\
    Metrics.payload_gain_kg v = 30 * 400 /\
    Metrics.payload_value_usd v = Metrics.payload_gain_kg v * 2940 /\
    (0 <= Metrics.extra_satellites v)%Z /\
    260 * IZR (Metrics.extra_satellites v) <= Metrics.payload_gain_kg v
    < 260 * (IZR (Metrics.extra_satellites v) + 1).
Proof. split; [lra | apply mission_value_savings_floor; lra]. Defined.

(** X15: [calculate_propellant_cost_savings] raises [ZeroDivisionError]
    for [isp = 0]; for positive [isp] and dry mass the propellant saved has
    the sign of the delta-v saved, and the cost saved is half of it. *)
Theorem propellant_cost_savings_sign (dv isp dry : R) :
  Performance.calculate_propellant_cost_savings dv 0 dry = Err ZeroDivisionError /\
  (0 < isp -> 0 < dry ->
   exists p c, Performance.calculate_propellant_cost_savings dv isp dry = Ok (p, c) /\
     c = p * 0.50 /\ (0 < p <-> 0 < dv) /\ (p = 0 <-> dv = 0) /\ (p < 0 <-> dv < 0)).
Proof.
  split.
  - unfold Performance.calculate_propellant_cost_savings. cbv zeta.
    replace (0 * 9.81) with 0 by lra. rewrite py_div_zero. reflexivity.
  - intros Hi Hd. rewrite Claims.calculate_propellant_cost_savings_ok by lra.
    do 2 eexists. split; [reflexivity | split; [reflexivity | ]].
    assert (Hve : 0 < isp * 9.81) by lra.
    assert (Sg : forall x, (0 < x <-> 0 < x / (isp * 9.81)) /\ (x = 0 <-> x / (isp * 9.81) = 0)
                           /\ (x < 0 <-> x / (isp * 9.81) < 0)).
    { intro x. pose proof (Rinv_0_lt_compat _ Hve). unfold Rdiv.
      repeat split; intro H'; nra. }
    destruct (Sg dv) as (A & B & C).
    set (q := dv / (isp * 9.81)) in *.
    assert (Ex : forall y, (0 < y -> 1 < exp y) /\ (y < 0 -> exp y < 1)).
    { intro y. split; intro Hy; rewrite <- exp_0; apply exp_increasing; lra. }
    destruct (Ex q) as [E1 E2].
    destruct (Rtotal_order q 0) as [L | [E | G]].
    + pose proof (E2 L). repeat split; intro; nra.
    + assert (dv = 0) by (apply B; exact E). rewrite E, exp_0.
      repeat split; intro; nra.
    + pose proof (E1 G). repeat split; intro; nra.
Qed.

Lemma propellant_cost_savings_sign_witness :
  exists p c, Performance.calculate_propellant_cost_savings 30 380 120000 = Ok (p, c) /\
    c = p * 0.50 /\ (0 < p <-> 0 < 30) /\ (p = 0 <-> 30 = 0) /\ (p < 0 <-> 30 < 0).
Proof. apply (proj2 (propellant_cost_savings_sign 30 380 120000)); lra. Defined.

End MetricsExtras.

Module SimulatorExtras.
Import Simulator SimulatorFacts PhaseOrder.

Lemma speed_nth_bounds (i : Z) :
  (0 <= i <= 4)%Z -> 0.25 <= nth (Z.to_nat i) SPEED_MULTIPLIERS 1.0 <= 4.
Proof.
  intro H. assert (i = 0 \/ i = 1 \/ i = 2 \/ i = 3 \/ i = 4)%Z as C by lia.
  destruct C as [-> | [-> | [-> | [-> | ->]]]]; simpl; lra.
Qed.

Lemma py_int_nonneg (x : R) : 0 <= x -> (0 <= py_int x)%Z.
Proof.
  intro Hx. unfold py_int. destruct (Rle_dec 0 x); [ | lra].
  pose proof (base_Int_part x) as [_ H].
  assert (-1 < IZR (Int_part x)) by lra. apply lt_IZR in H0. lia.
Qed.

Lemma rmax_decay (lo c x k : R) :
  0 <= lo -> lo <= c -> 0 < k -> 0 <= x ->
  lo <= Rmax lo (c * exp (- x / k)) <= c.
Proof.
  intros Hlo Hc Hk Hx. split; [apply Rmax_l | apply Rmax_lub; [lra | ]].
  assert (exp (- x / k) <= 1).
  { rewrite <- exp_0. destruct (Req_dec x 0) as [E | E].
    - subst x. replace (- 0 / k) with 0 by (unfold Rdiv; ring). lra.
    - left. apply exp_increasing. unfold Rdiv.
      assert (0 < / k) by (apply Rinv_0_lt_compat; lra). nra. }
  pose proof (exp_pos (- x / k)). nra.
Qed.

(** What every reachable state keeps within bounds. *)
Lemma reachable_bounds (s : SimState) :
  reachable s ->
  (0 <= speed_index s <= 4)%Z /\
  current_speed_multiplier s = nth (Z.to_nat (speed_index s)) SPEED_MULTIPLIERS 1.0 /\
  (0 <= active_links s <= 10)%Z /\
  0.03 <= position_error_m s <= 25 /\ 0.002 <= velocity_error_mps s <= 0.15 /\
  0 <= dv_saved_mps s < 45 /\ 0 <= time_s s /\
  (current_phase s = PRE_LAUNCH \/ current_phase s = ASCENT -> is_tni_active s = false).
Proof.
  induction 1 as [ | s dt u1 u2 _ IH Hdt Hu1 Hu2 | s _ IH | s d _ IH].
  - unfold init_state. cbn.
    split; [lia | split; [reflexivity | split; [lia | ]]].
    split; [lra | split; [lra | split; [lra | split; [lra | ]]]].
    intros _. reflexivity.
  - destruct IH as (Hi & Hm & Hl & Hp & Hv & Hd & Ht & Htni).
    pose proof (speed_nth_bounds _ Hi) as Hmb. rewrite <- Hm in Hmb.
    unfold update_simulation_state, ASCENT_END, TNI_ACTIVATION_END,
      ORBITAL_INSERTION_END, TNI_DISCONNECT_END.
    destruct (is_running s); cbn [negb];
      [ | exact (conj Hi (conj Hm (conj Hl (conj Hp (conj Hv (conj Hd (conj Ht Htni)))))))].
    assert (Ht' : 0 <= time_s s + dt * current_speed_multiplier s) by nra.
    set (t := time_s s + dt * current_speed_multiplier s) in *.
    repeat match goal with |- context [Rlt_dec ?a ?b] => destruct (Rlt_dec a b) end;
      cbn [speed_index current_speed_multiplier active_links position_error_m
           velocity_error_mps dv_saved_mps time_s current_phase is_tni_active].
    + split; [exact Hi | split; [exact Hm | split; [lia | ]]].
      split; [lra | split; [lra | split; [exact Hd | split; [exact Ht' | ]]]].
      intros _. reflexivity.
    + assert (0 <= py_int ((t - 150) * 0.5))%Z by (apply py_int_nonneg; lra).
      split; [exact Hi | split; [exact Hm | split; [lia | ]]].
      split; [pose proof (rmax_decay 0.03 20 (t - 150) 9 ltac:(lra) ltac:(lra) ltac:(lra) ltac:(lra)); lra | ].
      split; [pose proof (rmax_decay 0.003 0.15 (t - 150) 7 ltac:(lra) ltac:(lra) ltac:(lra) ltac:(lra)); lra | ].
      split; [exact Hd | split; [exact Ht' | ]].
      intros [H' | H']; discriminate.
    + split; [exact Hi | split; [exact Hm | split; [exact Hl | ]]].
      split; [lra | split; [lra | split; [lra | split; [exact Ht' | ]]]].
      intros [H' | H']; discriminate.
    + assert (0 <= py_int ((t - 290) * 0.5))%Z by (apply py_int_nonneg; lra).
      split; [exact Hi | split; [exact Hm | split; [lia | ]]].
      split; [exact Hp | split; [exact Hv | split; [exact Hd | split; [exact Ht' | ]]]].
      intros [H' | H']; discriminate.
    + split; [exact Hi | split; [exact Hm | split; [exact Hl | ]]].
      split; [exact Hp | split; [exact Hv | split; [exact Hd | split; [exact Ht' | ]]]].
      intros [H' | H']; discriminate.
  - exact IH.
  - unfold handle_speed_change.
    destruct (andb _ _) eqn:G; [ | exact IH].
    apply andb_prop in G as [G1 G2]. apply Z.leb_le in G1. apply Z.ltb_lt in G2.
    simpl length in G2. cbn.
    destruct IH as (Hi & Hm & Hl & Hp & Hv & Hd & Ht & Htni).
    split; [lia | split; [reflexivity | ]].
    exact (conj Hl (conj Hp (conj Hv (conj Hd (conj Ht Htni))))).
Qed.

(** A state reachable in one step from [started]: one second into ASCENT. *)
Lemma ascent_1_reachable :
  reachable (update_simulation_state 1 (0%R, 0%R) started) /\
  current_phase (update_simulation_state 1 (0%R, 0%R) started) = ASCENT /\
  is_running (update_simulation_state 1 (0%R, 0%R) started) = true /\
  time_s (update_simulation_state 1 (0%R, 0%R) started) = 1.
Proof.
  split; [apply reach_update; [apply reach_toggle, reach_init | lra | lra | lra] | ].
  unfold update_simulation_state, started, toggle_running, init_state, ASCENT_END. cbn.
  destruct (Rlt_dec (0.0 + 1 * 1.0) 150); [ | lra].
  cbn. split; [reflexivity | split; [reflexivity | lra]].
Qed.

(** X16: in every reachable state the speed index stays within
    [SPEED_MULTIPLIERS] and the multiplier is the entry at that index, so it
    lies between 1/4x and 4x. *)
Theorem reachable_speed_setting (s : SimState) :
  reachable s ->
  (0 <= speed_index s <= 4)%Z /\
  current_speed_multiplier s = nth (Z.to_nat (speed_index s)) SPEED_MULTIPLIERS 1.0 /\
  0.25 <= current_speed_multiplier s <= 4.
Proof.
  intro Hr. destruct (reachable_bounds s Hr) as (Hi & Hm & _).
  split; [exact Hi | split; [exact Hm | rewrite Hm; apply speed_nth_bounds; exact Hi]].
Qed.

Lemma reachable_speed_setting_witness :
  reachable (handle_speed_change 1 started) /\
  (0 <= speed_index (handle_speed_change 1 started) <= 4)%Z /\
  current_speed_multiplier (handle_speed_change 1 started)
  = nth (Z.to_nat (speed_index (handle_speed_change 1 started))) SPEED_MULTIPLIERS 1.0 /\
  0.25 <= current_speed_multiplier (handle_speed_change 1 started) <= 4.
Proof.
  assert (H : reachable (handle_speed_change 1 started))
    by (apply reach_speed, reach_toggle, reach_init).
  split; [exact H | apply reachable_speed_setting; exact H].
Defined.

(** X17: in every reachable state [active_links] lies in [[0, 10]]. *)
Theorem reachable_active_links (s : SimState) :
  reachable s -> (0 <= active_links s <= 10)%Z.
Proof. intro Hr. apply (reachable_bounds s Hr). Qed.

Lemma reachable_active_links_witness :
  reachable (update_simulation_state 1 (0%R, 0%R) started) /\
  (0 <= active_links (update_simulation_state 1 (0%R, 0%R) started) <= 10)%Z.
Proof.
  split; [apply ascent_1_reachable | apply reachable_active_links; apply ascent_1_reachable].
Defined.

(** X18: in every reachable state the position error lies in [[0.03, 25]] m
    and the velocity error in [[0.002, 0.15]] m/s. *)
Theorem reachable_error_bounds (s : SimState) :
  reachable s ->
  0.03 <= position_error_m s <= 25 /\ 0.002 <= velocity_error_mps s <= 0.15.
Proof. intro Hr. destruct (reachable_bounds s Hr) as (_ & _ & _ & Hp & Hv & _). split; assumption. Qed.

Lemma reachable_error_bounds_witness :
  reachable (update_simulation_state 1 (0%R, 0%R) started) /\
  0.03 <= position_error_m (update_simulation_state 1 (0%R, 0%R) started) <= 25 /\
  0.002 <= velocity_error_mps (update_simulation_state 1 (0%R, 0%R) started) <= 0.15.
Proof.
  split; [apply ascent_1_reachable | apply reachable_error_bounds; apply ascent_1_reachable].
Defined.

(** X19: in every reachable state the delta-v saved lies in [[0, 45)]. *)
Theorem reachable_dv_saved (s : SimState) :
  reachable s -> 0 <= dv_saved_mps s < 45.
Proof. intro Hr. apply (reachable_bounds s Hr). Qed.

Lemma reachable_dv_saved_witness :
  reachable (update_simulation_state 1 (0%R, 0%R) started) /\
  0 <= dv_saved_mps (update_simulation_state 1 (0%R, 0%R) started) < 45.
Proof.
  split; [apply ascent_1_reachable | apply reachable_dv_saved; apply ascent_1_reachable].
Defined.

(** X20: the clock of a reachable state is non-negative and never goes
    back on an update with [dt >= 0]. *)
Theorem update_time_monotone (s : SimState) (dt : R) (rnd : R * R) :
  reachable s -> 0 <= dt ->
  0 <= time_s s <= time_s (update_simulation_state dt rnd s).
Proof.
  intros Hr Hdt. destruct (reachable_bounds s Hr) as (Hi & Hm & _ & _ & _ & _ & Ht & _).
  pose proof (speed_nth_bounds _ Hi) as Hmb. rewrite <- Hm in Hmb.
  split; [exact Ht | ].
  destruct (is_running s) eqn:Hrun.
  - rewrite update_time by exact Hrun. nra.
  - rewrite update_stopped by exact Hrun. lra.
Qed.

Lemma update_time_monotone_witness :
  reachable started /\ 0 <= 200 /\
  0 <= time_s started <= time_s (update_simulation_state 200 (0.5%R, 0.5%R) started).
Proof.
  assert (H : reachable started) by (apply reach_toggle, reach_init).
  split; [exact H | split; [lra | apply update_time_monotone; [exact H | lra]]].
Defined.

(** X21: an update with [dt >= 0] never moves a reachable state back to an
    earlier phase. *)
Theorem update_phase_monotone (s : SimState) (dt : R) (rnd : R * R) :
  reachable s -> 0 <= dt ->
  (phase_rank (current_phase s)
   <= phase_rank (current_phase (update_simulation_state dt rnd s)))%nat.
Proof.
  intros Hr Hdt. pose proof (reachable_consistent s Hr) as Hc.
  destruct (reachable_bounds s Hr) as (Hi & Hm & _).
  pose proof (speed_nth_bounds _ Hi) as Hmb. rewrite <- Hm in Hmb.
  assert (He : 0 <= dt * current_speed_multiplier s) by nra.
  unfold consistent in Hc.
  unfold update_simulation_state, ASCENT_END, TNI_ACTIVATION_END,
    ORBITAL_INSERTION_END, TNI_DISCONNECT_END.
  destruct (is_running s); cbn [negb]; [ | lia].
  destruct rnd as [u1 u2].
  set (e := dt * current_speed_multiplier s) in *.
  repeat match goal with |- context [Rlt_dec ?a ?b] => destruct (Rlt_dec a b) end;
    cbn [current_phase phase_rank];
    destruct (current_phase s); cbn [phase_rank]; try lia; exfalso; lra.
Qed.

Lemma update_phase_monotone_witness :
  reachable (update_simulation_state 1 (0%R, 0%R) started) /\ 0 <= 200 /\
  (phase_rank (current_phase (update_simulation_state 1 (0%R, 0%R) started))
   <= phase_rank (current_phase (update_simulation_state 200 (0%R, 0%R)
                                   (update_simulation_state 1 (0%R, 0%R) started))))%nat.
Proof.
  split; [apply ascent_1_reachable | split; [lra | ]].
  apply update_phase_monotone; [apply ascent_1_reachable | lra].
Defined.

(** X23: in a reachable state, a speed change that is applied is undone by
    the opposite change. *)
Theorem speed_change_round_trip (s : SimState) (d : Z) :
  reachable s -> (0 <= speed_index s + d <= 4)%Z ->
  handle_speed_change (- d) (handle_speed_change d s) = s.
Proof.
  intros Hr Hd. destruct (reachable_bounds s Hr) as (Hi & Hm & _).
  unfold handle_speed_change at 2.
  replace (andb (0 <=? speed_index s + d)%Z
             (speed_index s + d <? Z.of_nat (length SPEED_MULTIPLIERS))%Z) with true
    by (symmetry; apply andb_true_intro; split; [apply Z.leb_le | apply Z.ltb_lt; simpl]; lia).
  unfold handle_speed_change. cbn [speed_index].
  replace (speed_index s + d + - d)%Z with (speed_index s) by ring.
  replace (andb (0 <=? speed_index s)%Z
             (speed_index s <? Z.of_nat (length SPEED_MULTIPLIERS))%Z) with true
    by (symmetry; apply andb_true_intro; split; [apply Z.leb_le | apply Z.ltb_lt; simpl]; lia).
  rewrite <- Hm. destruct s. reflexivity.
Qed.

Lemma speed_change_round_trip_witness :
  reachable started /\ (0 <= speed_index started + 1 <= 4)%Z /\
  handle_speed_change (- 1) (handle_speed_change 1 started) = started.
Proof.
  assert (H : reachable started) by (apply reach_toggle, reach_init).
  assert (Hd : (0 <= speed_index started + 1 <= 4)%Z) by (cbn; lia).
  split; [exact H | split; [exact Hd | apply speed_change_round_trip; assumption]].
Defined.

(** X24: a frame that carries a running ASCENT state past 170 s lands in
    ORBITAL INSERTION without ever activating TNI: [is_tni_active] stays
    false and [active_links] stays 0. *)
Theorem ascent_skip_keeps_tni_off (s : SimState) (dt : R) (rnd : R * R) :
  reachable s -> is_running s = true -> current_phase s = ASCENT ->
  170 <= time_s s + dt * current_speed_multiplier s < 290 ->
  current_phase (update_simulation_state dt rnd s) = ORBITAL_INSERTION /\
  is_tni_active (update_simulation_state dt rnd s) = false /\
  active_links (update_simulation_state dt rnd s) = 0%Z.
Proof.
  intros Hr Hrun Hp Ht.
  pose proof (reachable_consistent s Hr) as Hc. unfold consistent in Hc.
  rewrite Hp in Hc. destruct Hc as (_ & _ & Hl & _).
  destruct (reachable_bounds s Hr) as (_ & _ & _ & _ & _ & _ & _ & Htni).
  specialize (Htni (or_intror Hp)).
  unfold update_simulation_state, ASCENT_END, TNI_ACTIVATION_END,
    ORBITAL_INSERTION_END, TNI_DISCONNECT_END.
  rewrite Hrun. cbn [negb]. destruct rnd as [u1 u2].
  destruct (Rlt_dec (time_s s + dt * current_speed_multiplier s) 150); [lra | ].
  destruct (Rlt_dec (time_s s + dt * current_speed_multiplier s) 170); [lra | ].
  destruct (Rlt_dec (time_s s + dt * current_speed_multiplier s) 290); [ | lra].
  cbn. split; [reflexivity | split; assumption].
Qed.

Lemma ascent_skip_keeps_tni_off_witness :
  current_phase (update_simulation_state 200 (0%R, 0%R) (update_simulation_state 1 (0%R, 0%R) started))
  = ORBITAL_INSERTION /\
  is_tni_active (update_simulation_state 200 (0%R, 0%R) (update_simulation_state 1 (0%R, 0%R) started))
  = false /\
  active_links (update_simulation_state 200 (0%R, 0%R) (update_simulation_state 1 (0%R, 0%R) started))
  = 0%Z.
Proof.
  destruct ascent_1_reachable as (Hr & Hp & Hrun & Ht).
  apply ascent_skip_keeps_tni_off; [exact Hr | exact Hrun | exact Hp | ].
  rewrite Ht, update_multiplier, SimulatorClaims.started_multiplier. lra.
Defined.

End SimulatorExtras.
